(** * middlewarer: the wrapper generator of [main.go], embedded and verified

    The development follows the Go program: the helpers of package
    [strings] it calls, the part of [go/types] it drives (type rendering
    with a qualifier), the [Generator] with its four text buffers, the
    emitter [print], and the entry point [main] run against an explicit
    world (file system, standard output, trace of external calls).

    Go strings are byte strings; they are [string] here, one [ascii] per
    byte. *)

From Stdlib Require Import Ascii String List ZArith Lia Bool.
From stdpp Require Import base option list strings gmap pretty.

Open Scope string_scope.
Set Warnings "-register-all".

(** ** Bytes that Rocq string literals cannot spell *)

Definition nl : string := String (ascii_of_nat 10) "".
Definition tab : string := String (ascii_of_nat 9) "".
Definition dquote : string := String (ascii_of_nat 34) "".

(** [%d] of a non-negative [int]. *)
Definition itoa (n : nat) : string := pretty n.

(** ** Package strings *)

Module gostrings.

(** [strings.Join(elems, sep)] *)
Fixpoint Join (elems : list string) (sep : string) : string :=
  match elems with
  | [] => ""
  | [x] => x
  | x :: rest => x +:+ sep +:+ Join rest sep
  end.

(** [strings.HasSuffix(s, suffix)] *)
Definition HasSuffix (s suffix : string) : bool :=
  (String.length suffix <=? String.length s)%nat &&
  String.eqb
    (substring (String.length s - String.length suffix)
               (String.length suffix) s)
    suffix.

(** [strings.TrimSuffix(s, suffix)]: [s] without the trailing [suffix],
    or [s] itself when it does not end in [suffix]. *)
Definition TrimSuffix (s suffix : string) : string :=
  if HasSuffix s suffix
  then substring 0 (String.length s - String.length suffix) s
  else s.

Definition isASCII (s : string) : bool :=
  forallb (fun c => (nat_of_ascii c <? 128)%nat) (list_ascii_of_string s).

Definition lowerASCII (c : ascii) : ascii :=
  let n := nat_of_ascii c in
  if ((65 <=? n) && (n <=? 90))%nat then ascii_of_nat (n + 32) else c.

Fixpoint mapBytes (f : ascii -> ascii) (s : string) : string :=
  match s with
  | EmptyString => EmptyString
  | String c r => String (f c) (mapBytes f r)
  end.

Section ToLower.
(** The slow path of [strings.ToLower], [Map(unicode.ToLower, s)],
    taken when [s] has a byte outside ASCII.  It needs the Unicode case
    tables of package [unicode]; it is a parameter of the development. *)
Variable mapUnicodeToLower : string -> string.

(** [strings.ToLower(s)] *)
Definition ToLower (s : string) : string :=
  if isASCII s then mapBytes lowerASCII s else mapUnicodeToLower s.
End ToLower.

(** [s[0:1]]: the first byte of [s]; the slice expression panics (index
    out of range) on the empty string, which is [None] here. *)
Definition slice01 (s : string) : option string :=
  match s with
  | EmptyString => None
  | String c _ => Some (String c EmptyString)
  end.

End gostrings.

(** ** Package go/types: types, signatures, interfaces and their rendering

    The generator hands its qualifier to [types.TypeString] and
    [types.WriteSignature], and reads the target through [NumMethods],
    [Method] and [Empty].  All of them belong to the Go standard library;
    what the generator relies on is written out here after the type writer
    of typestring.go and the accessors of interface.go. *)

Module gotypes.

(** [types.Package]: the import path and the declared name. *)
Record Package := { Path : string; Name : string }.

Inductive ChanDir := SendRecv | SendOnly | RecvOnly.

(** A tuple of variables ([*types.Tuple]): each a name (empty when the
    source declared none) and a type. *)
Record Signature_ (T : Type) := MkSig {
  Params : list (string * T);
  Variadic : bool;
  Results : list (string * T)
}.
Arguments MkSig {T} _ _ _.
Arguments Params {T} _.
Arguments Variadic {T} _.
Arguments Results {T} _.

(** A field of a struct type: its name, its type, and whether it is an
    embedded field.  Field tags are left out: the fields here carry
    none. *)
Record Field_ (T : Type) := MkField {
  FieldName : string;
  FieldType : T;
  FieldEmbedded : bool
}.
Arguments MkField {T} _ _ _.
Arguments FieldName {T} _.
Arguments FieldType {T} _.
Arguments FieldEmbedded {T} _.

(** The type forms: predeclared types (and type parameters, which are
    written by their name as well), named types (with the package they
    are declared in, [None] for the universe, and their type arguments
    when instantiated), pointers, slices, arrays, maps, channels, function
    types, struct types, the unions of type terms that constraint
    interfaces embed (a term is a type, with or without a tilde), and
    interface types (their declared methods and embedded types). *)
Inductive type :=
| Basic (name : string)
| Named (pkg : option Package) (name : string) (targs : list type)
| Pointer (elem : type)
| Slice (elem : type)
| Array (len : nat) (elem : type)
| Map (key elem : type)
| Chan (dir : ChanDir) (elem : type)
| Func_ (sig : Signature_ type)
| Struct (fields : list (Field_ type))
| Union (terms : list (bool * type))
| InterfaceT (methods : list (string * Signature_ type))
    (embeddeds : list type).

Definition Signature := Signature_ type.

(** [types.Qualifier]; [nil] is [None]. *)
Definition Qualifier := option (Package -> string).

(** [packagePrefix(pkg, qf)] of typestring.go *)
Definition packagePrefix (pkg : option Package) (qf : Qualifier) : string :=
  match pkg with
  | None => ""
  | Some p =>
      let s := match qf with Some f => f p | None => Path p end in
      if String.eqb s "" then s else s +:+ "."
  end.

(** The loop all lists of the type writer share: the elements as [f]
    writes them, with [sep] before each but the first. *)
Definition listWith {A : Type} (sep : string) (f : A -> string)
  : bool -> list A -> string :=
  fix go (first : bool) (xs : list A) : string :=
    match xs with
    | [] => ""
    | x :: rest => (if first then "" else sep) +:+ f x +:+ go false rest
    end.

(** The element loop of [typeWriter.tuple], over the writer [typ] of one
    type: elements are separated by a comma and a space; a variable is
    written with its name when it has one; the last parameter of a
    variadic signature is written [...T]. *)
Definition tupleVarsWith (typ : type -> string) (variadic : bool)
  : bool -> list (string * type) -> string :=
  fix go (first : bool) (vs : list (string * type)) : string :=
    match vs with
    | [] => ""
    | (n, t) :: rest =>
        (if first then "" else ", ") +:+
        (if String.eqb n "" then "" else n +:+ " ") +:+
        (match rest, variadic with
         | [], true =>
             match t with
             | Slice e => "..." +:+ typ e
             | _ => typ t +:+ "..."
             end
         | _, _ => typ t
         end) +:+
        go false rest
    end.

(** [typeWriter.signature], over the writer [typ] of one type: the
    parameters, then nothing for no result, the bare type for a single
    unnamed result, and a parenthesised tuple otherwise. *)
Definition signatureWith (typ : type -> string) (sig : Signature) : string :=
  ("(" +:+ tupleVarsWith typ (Variadic sig) true (Params sig) +:+ ")") +:+
  match Results sig with
  | [] => ""
  | [(n, r)] =>
      if String.eqb n "" then " " +:+ typ r
      else " " +:+ ("(" +:+ tupleVarsWith typ false true (Results sig) +:+ ")")
  | _ => " " +:+ ("(" +:+ tupleVarsWith typ false true (Results sig) +:+ ")")
  end.

(** A struct field as the type writer writes it: the name, unless the
    field is embedded, and the type. *)
Definition fieldWith (typ : type -> string) (f : Field_ type) : string :=
  (if FieldEmbedded f then "" else FieldName f +:+ " ") +:+ typ (FieldType f).

(** A term of a union: a tilde when it has one, and the type. *)
Definition termWith (typ : type -> string) (t : bool * type) : string :=
  (if fst t then "~" else "") +:+ typ (snd t).

(** A method of an interface type: its name and its signature. *)
Definition methodWith (typ : type -> string) (m : string * Signature)
  : string :=
  fst m +:+ signatureWith typ (snd m).

Section Writer.
Variable qf : Qualifier.

(** [typeWriter.typ].  The type arguments of an instantiated type are
    separated by a comma and a space, the fields of a struct and the
    elements of an interface by a semicolon and a space, the terms of a
    union by a bar between spaces.  An interface type is written by its declared
    methods followed by its embedded types. *)
Fixpoint typ (t : type) : string :=
  match t with
  | Basic n => n
  | Named pkg n targs =>
      packagePrefix pkg qf +:+ n +:+
      match targs with
      | [] => ""
      | _ => "[" +:+ listWith ", " typ true targs +:+ "]"
      end
  | Pointer e => "*" +:+ typ e
  | Slice e => "[]" +:+ typ e
  | Array n e => "[" +:+ itoa n +:+ "]" +:+ typ e
  | Map k e => "map[" +:+ typ k +:+ "]" +:+ typ e
  | Chan d e =>
      match d with
      | SendRecv =>
          match e with
          | Chan RecvOnly _ => "chan (" +:+ typ e +:+ ")"
          | _ => "chan " +:+ typ e
          end
      | SendOnly => "chan<- " +:+ typ e
      | RecvOnly => "<-chan " +:+ typ e
      end
  | Func_ sig => "func" +:+ signatureWith typ sig
  | Struct fields =>
      "struct{" +:+ listWith "; " (fieldWith typ) true fields +:+ "}"
  | Union terms => listWith " | " (termWith typ) true terms
  | InterfaceT methods embeddeds =>
      "interface{" +:+
      listWith "; " (methodWith typ) true methods +:+
      listWith "; " typ (match methods with [] => true | _ => false end)
        embeddeds +:+
      "}"
  end.

(** [typeWriter.tuple]: the variables between parentheses. *)
Definition tuple (vs : list (string * type)) (variadic : bool) : string :=
  "(" +:+ tupleVarsWith typ variadic true vs +:+ ")".

(** [typeWriter.signature] *)
Definition signature (sig : Signature) : string := signatureWith typ sig.
End Writer.

(** [types.TypeString(typ, qf)] *)
Definition TypeString (t : type) (qf : Qualifier) : string := typ qf t.

(** [types.WriteSignature(buf, sig, qf)]: the signature without the
    leading [func], appended to the buffer. *)
Definition WriteSignature (buf : string) (sig : Signature) (qf : Qualifier)
  : string :=
  buf +:+ signature qf sig.

(** [*types.Func]: a method, its name and signature. *)
Record Func := { FuncName : string; FuncType : Signature }.

(** [token.IsExported(name)], for a name that starts with an ASCII
    character. *)
Definition IsExported (name : string) : bool :=
  match name with
  | String c _ => (65 <=? nat_of_ascii c)%nat && (nat_of_ascii c <=? 90)%nat
  | EmptyString => false
  end.

(** The order in which the type checker keeps the methods of an
    interface: exported methods before the others, and by name, compared
    byte by byte. *)
Definition lessMethod (a b : Func) : bool :=
  let ea := IsExported (FuncName a) in
  let eb := IsExported (FuncName b) in
  if xorb ea eb then ea else String.ltb (FuncName a) (FuncName b).

Fixpoint insertMethod (m : Func) (ms : list Func) : list Func :=
  match ms with
  | [] => [m]
  | x :: rest =>
      if lessMethod m x then m :: x :: rest else x :: insertMethod m rest
  end.

(** [sortMethods(list)], for methods of one package with different
    names. *)
Definition sortMethods (ms : list Func) : list Func :=
  List.fold_right insertMethod [] ms.

(** [*types.Interface], as the type checker hands it over:
    - [ExplicitMethods], the methods the interface declares itself, which
      the type checker sorts as soon as it has read the declaration
      ([NumExplicitMethods], [ExplicitMethod]);
    - [Embeddeds], the types it embeds, in the order of the source
      ([NumEmbeddeds], [EmbeddedType]);
    - [Methods], the methods of its type set, its own and those of the
      interfaces it embeds, sorted as well ([NumMethods], [Method]);
    - [IsMethodSet], whether the interface is described by its methods
      alone, that is, has no type terms and is not [comparable]. *)
Record Interface := {
  ExplicitMethods : list Func;
  Embeddeds : list type;
  Methods : list Func;
  IsMethodSet : bool
}.

(** [t.NumMethods()] *)
Definition NumMethods (t : Interface) : nat := List.length (Methods t).

(** [t.Method(i)] for [i < t.NumMethods()] *)
Definition Method (t : Interface) (i : nat) : option Func :=
  Methods t !! i.

(** [t.Empty()]: the type set of [t] is the set of all types, which is
    the case when [t] has no method and no restriction to a set of
    types. *)
Definition Empty (t : Interface) : bool :=
  IsMethodSet t && (NumMethods t =? 0)%nat.

(** What the type checker makes of an interface type of the source that
    declares the methods [ms], in this order, and embeds nothing. *)
Definition declaring (ms : list Func) : Interface :=
  {| ExplicitMethods := sortMethods ms; Embeddeds := [];
     Methods := sortMethods ms; IsMethodSet := true |}.

(** The interface as a type, for the type writer. *)
Definition InterfaceType (t : Interface) : type :=
  InterfaceT (List.map (fun m => (FuncName m, FuncType m)) (ExplicitMethods t))
    (Embeddeds t).

(** What [obj.Type().Underlying()] is for an object of a package scope:
    an interface type or a type of another shape. *)
Inductive Underlying :=
| UInterface (t : Interface)
| UOther (t : type).

(** [types.Object], as far as the generator looks at it. *)
Record Object := { ObjName : string; ObjUnderlying : Underlying }.

End gotypes.

(** ** Package golang.org/x/tools/go/packages *)

Module gopackages.

(** [packages.Package], as far as the generator reads it: [Name],
    [PkgPath] and the package scope [Types.Scope()]. *)
Record Package := {
  Name : string;
  PkgPath : string;
  Scope : gmap string gotypes.Object
}.

End gopackages.

(** ** The process: its environment and the world it changes *)

(** How the run of the [goimports] subprocess ends. *)
Inductive CmdResult :=
| StartError (err : string)                 (* cmd.Start() fails *)
| WaitError (err : string) (stderr : string) (* cmd.Wait() fails *)
| Finished (stdout : string).               (* exit status 0 *)

(** What [flag.Parse()] makes of the command line.  The flag set is the
    default one, which handles errors by leaving the process: it returns
    when every argument parses; for [-h] or [-help], which the program
    does not define, it prints the usage and exits with status 0; for
    any other argument it cannot use (a flag that is not defined, a flag
    without its value, a bad boolean) it prints a complaint and the usage
    and exits with status 2. *)
Inductive FlagOutcome :=
| Parsed
| HelpRequested
| BadFlag (complaint : string).

(** Where [main] sends the formatted text. *)
Inductive Dest :=
| ToStdout
| ToFile (name : string).

(** How a write to the destination ends: everything is written, or the
    write fails after the first [n] bytes. *)
Inductive WriteOutcome :=
| Written
| WriteError (n : nat) (err : string).

(** What a run is given: the command line, what [flag.Parse] makes of it
    and the flag values it leaves in the package variables when it
    returns, and the answers of the collaborators (package loader, file
    system, formatter, Unicode tables). *)
Record Env := {
  os_Args : list string;                  (* os.Args[1:] *)
  flag_Parse : FlagOutcome;
  typeName : string;                      (* *typeName *)
  output : string;                        (* *output *)
  debug : bool;                           (* *debug *)
  packages_Load : string + list gopackages.Package;
  os_OpenFile : string -> option string;  (* the error, if any *)
  dest_Write : Dest -> string -> WriteOutcome;
  file_Close : string -> option string;   (* the error, if any *)
  goimports : string -> CmdResult;        (* from the text on its stdin *)
  unicode_ToLower : string -> string      (* Map(unicode.ToLower, s) *)
}.

(** The external calls and diagnostics of a run, in the order made. *)
Inductive Event :=
| FlagError (complaint : string) (* the flag package's complaint *)
| Usage                      (* the usage text, flag.Usage() *)
| Log (entry : string)       (* an entry of package log on standard error *)
| Load                       (* packages.Load(cfg, ".") *)
| OpenFile (name : string)   (* os.OpenFile(name, O_CREATE|O_WRONLY|O_TRUNC) *)
| Exec (stdin : string)      (* the formatter started on this input *)
| CloseFile (name : string)  (* out.Close() *)
| Panic (msg : string).      (* a run-time panic *)

Record World := {
  files : gmap string string;  (* file contents by name *)
  stdout : string;             (* what was written to os.Stdout *)
  trace : list Event
}.

(** A computation either goes on with a value or ends the process with an
    exit status ([os.Exit], [log.Fatalf], a panic). *)
Inductive Res (A : Type) :=
| Done (a : A)
| Exit (code : Z).
Arguments Done {A} _.
Arguments Exit {A} _.

Definition M (A : Type) : Type := World -> World * Res A.

Definition ret {A} (a : A) : M A := fun w => (w, Done a).

Definition bind {A B} (m : M A) (k : A -> M B) : M B :=
  fun w =>
    match m w with
    | (w', Done a) => k a w'
    | (w', Exit c) => (w', Exit c)
    end.

Notation "'let*' x ':=' m 'in' k" := (bind m (fun x => k))
  (at level 10, x name, m at level 100, k at level 200).
Notation "m ';;;' k" := (bind m (fun _ => k))
  (at level 100, k at level 200, right associativity).

(** The world [w] after the events [evs] and nothing else. *)
Definition logged (w : World) (evs : list Event) : World :=
  {| files := files w; stdout := stdout w; trace := trace w ++ evs |}.

Definition emit (e : Event) : M unit :=
  fun w => ({| files := files w; stdout := stdout w;
               trace := trace w ++ [e] |}, Done tt).

(** [os.Exit(code)] *)
Definition os_Exit {A} (code : Z) : M A := fun w => (w, Exit code).

(** The logger after [log.SetFlags(0)] and [log.SetPrefix("middlewarer: ")]:
    the prefix, the message, and a newline unless the message ends in one. *)
Definition log_line (msg : string) : string :=
  "middlewarer: " +:+ msg +:+
  (if gostrings.HasSuffix msg nl then "" else nl).

(** [log.Printf] *)
Definition log_Printf (msg : string) : M unit := emit (Log (log_line msg)).

(** [log.Fatalf]: [Printf] followed by [os.Exit(1)]. *)
Definition log_Fatalf {A} (msg : string) : M A :=
  log_Printf msg ;;; os_Exit 1.

(** A run-time panic ends the process with status 2. *)
Definition panic {A} (msg : string) : M A := emit (Panic msg) ;;; os_Exit 2.

(** [flag.Parse()] on the default flag set. *)
Definition flag_Parse_ (outcome : FlagOutcome) : M unit :=
  match outcome with
  | Parsed => ret tt
  | HelpRequested => emit Usage ;;; os_Exit 0
  | BadFlag complaint => emit (FlagError complaint) ;;; emit Usage ;;; os_Exit 2
  end.


(** ** The Generator *)

(** The [Generator] struct.  [p] and [target] are pointers that [init] sets
    before anything reads them; the buffers are allocated empty by
    [generateWrapperCode]. *)
Record Generator := {
  p : gopackages.Package;
  target : gotypes.Interface;
  targetName : string;
  targetFirstLetter : string;
  structName : string;
  wrapFunction : string;
  middlewareStruct : string;
  handlerFuncTypes : string;
  interfaceMethods : string
}.

(** Format string of the function returning a wrapped instance:
    [%[1]s] the interface type name, [%[2]s] the middleware struct name. *)
Definition wrapFunctionFormat (a1 a2 : string) : string :=
  "// Wrap" +:+ a1 +:+ " returns the passed " +:+ a1 +:+
  " wrapped in the middleware defined in " +:+ a2 +:+ nl +:+
  "func Wrap" +:+ a1 +:+ "(toWrap " +:+ a1 +:+ ", wrapper " +:+ a2 +:+ ") "
  +:+ a1 +:+ " {" +:+ nl +:+
  tab +:+ "wrapper.wrapped = toWrap" +:+ nl +:+
  tab +:+ "return &wrapper" +:+ nl +:+
  "}" +:+ nl.

(** Format string of a method with a return value: [%[1]s] the receiver,
    [%[2]s] the receiver type, [%[3]s] the function name, [%[4]s] the
    parameters, [%[5]s] the return type, [%[6]s] the argument list. *)
Definition interfaceMethodFormatReturn (a1 a2 a3 a4 a5 a6 : string) : string :=
  "func (" +:+ a1 +:+ " *" +:+ a2 +:+ ") " +:+ a3 +:+ "(" +:+ a4 +:+ ") "
  +:+ a5 +:+ " {" +:+ nl +:+
  tab +:+ "fun := " +:+ a1 +:+ ".wrapped." +:+ a3 +:+ nl +:+
  tab +:+ "if " +:+ a1 +:+ "." +:+ a3 +:+ "Middleware != nil {" +:+ nl +:+
  tab +:+ tab +:+ "fun = " +:+ a1 +:+ "." +:+ a3 +:+ "Middleware(fun)" +:+ nl
  +:+
  tab +:+ "}" +:+ nl +:+
  tab +:+ "return fun(" +:+ a6 +:+ ")" +:+ nl +:+
  "}" +:+ nl +:+
  nl.

(** Format string of a method without return value: [%[1]s] the receiver,
    [%[2]s] the receiver type, [%[3]s] the function name, [%[4]s] the
    parameters, [%[5]s] the argument list. *)
Definition interfaceMethodFormatVoid (a1 a2 a3 a4 a5 : string) : string :=
  "func (" +:+ a1 +:+ " *" +:+ a2 +:+ ") " +:+ a3 +:+ "(" +:+ a4 +:+ ") {"
  +:+ nl +:+
  tab +:+ "fun := " +:+ a1 +:+ ".wrapped." +:+ a3 +:+ nl +:+
  tab +:+ "if " +:+ a1 +:+ "." +:+ a3 +:+ "Middleware != nil {" +:+ nl +:+
  tab +:+ tab +:+ "fun = " +:+ a1 +:+ "." +:+ a3 +:+ "Middleware(fun)" +:+ nl
  +:+
  tab +:+ "}" +:+ nl +:+
  tab +:+ "fun(" +:+ a5 +:+ ")" +:+ nl +:+
  "}" +:+ nl +:+
  nl.

(** [typeStringQuantifier]: the qualifier handed to [types.TypeString] and
    [types.WriteSignature]. *)
Definition typeStringQuantifier (g : Generator) (p0 : gotypes.Package)
  : string :=
  if String.eqb (gotypes.Path p0) (gopackages.PkgPath (p g)) then ""
  else gotypes.Name p0.

(** The rendering of a type under the generator's qualifier. *)
Definition rendered (g : Generator) (t : gotypes.type) : string :=
  gotypes.TypeString t (Some (typeStringQuantifier g)).

(** The parameter loop of [generateMiddlewareMethod]: for the parameter at
    index [i], [a<i>, ] goes to the argument list and [a<i> <type>, ] to the
    parameter list. *)
Fixpoint paramLoop (g : Generator) (i : nat)
  (params : list (string * gotypes.type))
  (parametersList argumentsList : string) : string * string :=
  match params with
  | [] => (parametersList, argumentsList)
  | (_, t) :: rest =>
      let typeString :=
        gotypes.TypeString t (Some (typeStringQuantifier g)) in
      let argumentsList' := argumentsList +:+ "a" +:+ itoa i +:+ ", " in
      let parametersList' :=
        parametersList +:+ "a" +:+ itoa i +:+ " " +:+ typeString +:+ ", " in
      paramLoop g (S i) rest parametersList' argumentsList'
  end.

Definition withInterfaceMethods (g : Generator) (s : string) : Generator :=
  {| p := p g; target := target g; targetName := targetName g;
     targetFirstLetter := targetFirstLetter g; structName := structName g;
     wrapFunction := wrapFunction g; middlewareStruct := middlewareStruct g;
     handlerFuncTypes := handlerFuncTypes g; interfaceMethods := s |}.

Definition withHandlerFuncTypes (g : Generator) (s : string) : Generator :=
  {| p := p g; target := target g; targetName := targetName g;
     targetFirstLetter := targetFirstLetter g; structName := structName g;
     wrapFunction := wrapFunction g; middlewareStruct := middlewareStruct g;
     handlerFuncTypes := s; interfaceMethods := interfaceMethods g |}.

Definition withMiddlewareStruct (g : Generator) (s : string) : Generator :=
  {| p := p g; target := target g; targetName := targetName g;
     targetFirstLetter := targetFirstLetter g; structName := structName g;
     wrapFunction := wrapFunction g; middlewareStruct := s;
     handlerFuncTypes := handlerFuncTypes g;
     interfaceMethods := interfaceMethods g |}.

(** The text one call of [generateMiddlewareMethod] writes. *)
Definition middlewareMethodText (g : Generator) (fn : gotypes.Func) : string :=
  let methodSignature := gotypes.FuncType fn in
  let '(parametersList, argumentsList) :=
    paramLoop g 0 (gotypes.Params methodSignature) "" "" in
  let parameters := gostrings.TrimSuffix parametersList ", " in
  let arguments := gostrings.TrimSuffix argumentsList ", " in
  match gotypes.Results methodSignature with
  | [] =>
      interfaceMethodFormatVoid (targetFirstLetter g) (structName g)
        (gotypes.FuncName fn) parameters arguments
  | results =>
      let returnTypes :=
        List.map (fun r => gotypes.TypeString (snd r)
                             (Some (typeStringQuantifier g))) results in
      let returnType := gostrings.Join returnTypes ", " in
      let returnType :=
        if negb (List.length results =? 1)%nat
        then "(" +:+ returnType +:+ ")" else returnType in
      interfaceMethodFormatReturn (targetFirstLetter g) (structName g)
        (gotypes.FuncName fn) parameters returnType arguments
  end.

(** [generateMiddlewareMethod]: the method implementation of [fn], appended
    to the [interfaceMethods] buffer. *)
Definition generateMiddlewareMethod (g : Generator) (fn : gotypes.Func)
  : Generator :=
  withInterfaceMethods g (interfaceMethods g +:+ middlewareMethodText g fn).

(** One iteration of the loop of [generateInterfaceMethods]. *)
Definition generateInterfaceMethod (g : Generator) (fn : gotypes.Func)
  : Generator :=
  (* Generate the handler type *)
  let handlerTypeName := gotypes.FuncName fn +:+ "Handler" in
  let sigString :=
    gotypes.WriteSignature "" (gotypes.FuncType fn)
      (Some (typeStringQuantifier g)) in
  let g1 :=
    withHandlerFuncTypes g
      (handlerFuncTypes g +:+
       "type " +:+ handlerTypeName +:+ " func" +:+ sigString +:+ nl) in
  (* Generate the struct field *)
  let structFieldName := gotypes.FuncName fn +:+ "Middleware" in
  let g2 :=
    withMiddlewareStruct g1
      (middlewareStruct g1 +:+
       tab +:+ structFieldName +:+ " func(" +:+ handlerTypeName +:+ ") " +:+
       handlerTypeName +:+ nl) in
  (* Generate the middleware method *)
  generateMiddlewareMethod g2 fn.

(** The loop of [generateInterfaceMethods] from index [i], with [n]
    iterations to go; [target.Method(i)] is in range throughout. *)
Fixpoint methodsLoop (target0 : gotypes.Interface) (n i : nat)
  (g : Generator) : Generator :=
  match n with
  | O => g
  | S n' =>
      match gotypes.Method target0 i with
      | Some fn =>
          methodsLoop target0 n' (S i) (generateInterfaceMethod g fn)
      | None => g
      end
  end.

(** [generateInterfaceMethods]:
    [for i := 0; i < target.NumMethods(); i++ { fun := target.Method(i) ... }] *)
Definition generateInterfaceMethods (g : Generator)
  (target0 : gotypes.Interface) : Generator :=
  methodsLoop target0 (gotypes.NumMethods target0) 0 g.


(** The zero value [Generator{}]; its nil pointers [p] and [target] stand
    here as an empty package and an empty interface. *)
Definition Generator_zero : Generator :=
  {| p := {| gopackages.Name := ""; gopackages.PkgPath := "";
             gopackages.Scope := ∅ |};
     target := {| gotypes.ExplicitMethods := []; gotypes.Embeddeds := [];
                  gotypes.Methods := []; gotypes.IsMethodSet := true |};
     targetName := ""; targetFirstLetter := ""; structName := "";
     wrapFunction := ""; middlewareStruct := ""; handlerFuncTypes := "";
     interfaceMethods := "" |}.

Definition withTargetName (g : Generator) (s : string) : Generator :=
  {| p := p g; target := target g; targetName := s;
     targetFirstLetter := targetFirstLetter g; structName := structName g;
     wrapFunction := wrapFunction g; middlewareStruct := middlewareStruct g;
     handlerFuncTypes := handlerFuncTypes g;
     interfaceMethods := interfaceMethods g |}.

Definition withP (g : Generator) (p0 : gopackages.Package) : Generator :=
  {| p := p0; target := target g; targetName := targetName g;
     targetFirstLetter := targetFirstLetter g; structName := structName g;
     wrapFunction := wrapFunction g; middlewareStruct := middlewareStruct g;
     handlerFuncTypes := handlerFuncTypes g;
     interfaceMethods := interfaceMethods g |}.

Definition withTarget (g : Generator) (t : gotypes.Interface) : Generator :=
  {| p := p g; target := t; targetName := targetName g;
     targetFirstLetter := targetFirstLetter g; structName := structName g;
     wrapFunction := wrapFunction g; middlewareStruct := middlewareStruct g;
     handlerFuncTypes := handlerFuncTypes g;
     interfaceMethods := interfaceMethods g |}.


Section Run.
Variable env : Env.

(** [init]: loads the package of the current directory and looks for the
    interface named [target0]. *)
Definition init (g : Generator) (target0 : string) : M Generator :=
  let g := withTargetName g target0 in
  (* Load the package of the current directory *)
  emit Load ;;;
  match packages_Load env with
  | inl err =>
      log_Printf ("Failed to load packages - " +:+ err) ;;; os_Exit 1
  | inr packs =>
      match packs with
      | [p0] =>
          let g := withP g p0 in
          (* Look for the matching interface *)
          match gopackages.Scope p0 !! target0 with
          | None =>
              log_Fatalf ("Couldn't find target object '" +:+ target0 +:+
                          "' in source file")
          | Some obj =>
              match gotypes.ObjUnderlying obj with
              | gotypes.UOther _ =>
                  log_Fatalf ("Provided target object '" +:+ target0 +:+
                              "' is not an interface")
              | gotypes.UInterface iFace =>
                  if gotypes.Empty iFace
                  then log_Fatalf
                         "Trying to generate middlewarer for an empty interface"
                  else ret (withTarget g iFace)
              end
          end
      | _ =>
          (* len(packs) != 1 *)
          log_Printf ("Loaded package length is not 1, but " +:+
                      itoa (List.length packs)) ;;;
          os_Exit 1
      end
  end.

(** [generateWrapperCode]: [None] is the panic of [g.targetName[0:1]] on
    an empty name. *)
Definition generateWrapperCode (g : Generator) : option Generator :=
  let structName0 := targetName g +:+ "Middleware" in
  match gostrings.slice01 (targetName g) with
  | None => None
  | Some first =>
      let g0 :=
        {| p := p g; target := target g; targetName := targetName g;
           targetFirstLetter :=
             gostrings.ToLower (unicode_ToLower env) first;
           structName := structName0;
           (* Write wrap function *)
           wrapFunction := wrapFunctionFormat (targetName g) structName0;
           (* Write header of middleware struct *)
           middlewareStruct :=
             ("// " +:+ structName0 +:+ " implements " +:+ targetName g
              +:+ nl) +:+
             ("type " +:+ structName0 +:+ " struct {" +:+ nl) +:+
             (tab +:+ "wrapped " +:+ targetName g +:+ nl) +:+
             nl;
           handlerFuncTypes := "";
           interfaceMethods := "" |} in
      let g1 := generateInterfaceMethods g0 (target g0) in
      (* Write footer of middleware struct *)
      Some (withMiddlewareStruct g1 (middlewareStruct g1 +:+ "}" +:+ nl))
  end.

(** [print]: the generated code written to the writer [w]. *)
Definition print (g : Generator) (w : string) : string :=
  w +:+
  (* Print header *)
  ("// Code generated by " +:+ dquote +:+ "middlewarer " +:+
   gostrings.Join (os_Args env) " " +:+ dquote +:+ "; DO NOT EDIT." +:+ nl)
  +:+ ("package " +:+ gopackages.Name (p g) +:+ nl) +:+
  nl +:+
  (* Print the generated code *)
  wrapFunction g +:+
  nl +:+
  middlewareStruct g +:+
  nl +:+
  handlerFuncTypes g +:+
  nl +:+
  interfaceMethods g +:+
  nl.

(** [os.OpenFile(name, os.O_CREATE|os.O_WRONLY|os.O_TRUNC, 0644)]: on
    success the file exists and is empty. *)
Definition openTrunc (name : string) : M (option string) :=
  emit (OpenFile name) ;;;
  match os_OpenFile env name with
  | Some err => ret (Some err)
  | None =>
      fun w => ({| files := <[name := ""]> (files w); stdout := stdout w;
                   trace := trace w |}, Done None)
  end.

(** What of [text] a write to the destination [d] leaves there: all of
    it, or its first bytes when the write fails. *)
Definition written (d : Dest) (text : string) : string :=
  match dest_Write env d text with
  | Written => text
  | WriteError n _ => substring 0 n text
  end.

(** [fmt.Fprint(destWriter, text)], called as a statement: the error a
    failing write returns is dropped.  The file was opened write-only at
    offset 0 and is written once. *)
Definition Fprint (d : Dest) (text : string) : M unit :=
  fun w =>
    match d with
    | ToStdout =>
        ({| files := files w; stdout := stdout w +:+ written d text;
            trace := trace w |}, Done tt)
    | ToFile name =>
        ({| files := <[name := written d text]> (files w);
            stdout := stdout w; trace := trace w |}, Done tt)
    end.

(** The deferred function of [main]: closes the output file. *)
Definition deferredClose (d : Dest) : M unit :=
  match d with
  | ToStdout => ret tt
  | ToFile name =>
      emit (CloseFile name) ;;;
      match file_Close env name with
      | Some err => log_Fatalf ("Failed to close output file - " +:+ err)
      | None => ret tt
      end
  end.

(** The name of the output file: [-output] when given, else the type
    name in lower case followed by [_middleware.go]. *)
Definition outFileName : string :=
  let outFileName :=
    gostrings.ToLower (unicode_ToLower env) (typeName env) +:+
    "_middleware.go" in
  if negb (String.eqb (output env) "") then output env
  else outFileName.

(** [main], after [log.SetFlags(0)] and [log.SetPrefix].  [os.Exit] and
    [log.Fatalf] end the process at once: the deferred close runs only
    when [main] returns. *)
Definition main : M unit :=
  flag_Parse_ (flag_Parse env) ;;;
  (if String.eqb (typeName env) ""
   then emit Usage ;;; log_Printf "no type name supplied" ;;; os_Exit 1
   else ret tt) ;;;
  let* destWriter :=
    if debug env then ret ToStdout
    else
      let outFileName := outFileName in
      let* err := openTrunc outFileName in
      match err with
      | Some e =>
          log_Fatalf ("Couldn't open output file " +:+ outFileName +:+
                      " - " +:+ e)
      | None => ret (ToFile outFileName)
      end in
  let* g := init Generator_zero (typeName env) in
  (* Generate the actual code *)
  let* g :=
    match generateWrapperCode g with
    | Some g' => ret g'
    | None => panic "slice bounds out of range"
    end in
  (* Format the code and add imports *)
  (* Print generated code to formatter *)
  let cmdIn := print g "" in
  emit (Exec cmdIn) ;;;
  match goimports env cmdIn with
  | StartError e => log_Fatalf ("Failed to start format command - " +:+ e)
  | WaitError e stderr =>
      log_Fatalf ("Command to format code failed - " +:+ e +:+ nl +:+
                  "Stderr: " +:+ stderr +:+ nl)
  | Finished res =>
      (* io.ReadAll of the in-memory buffer cmdOut cannot fail *)
      Fprint destWriter res ;;;
      deferredClose destWriter
  end.

(** The process from start to end: the final world and the exit status. *)
Definition run (w : World) : World * Z :=
  match main w with
  | (w', Done _) => (w', 0%Z)
  | (w', Exit c) => (w', c)
  end.
End Run.

(** ** The first revision of the entry point (src/unnamed/part_000)

    It parses the flags, resolves the interface and prints it; there is no
    generation yet.  The logger is the standard one, which puts the date
    and time before each message. *)

Module Unnamed000.

Record Generator := {
  p : option gopackages.Package;
  target : option gotypes.Interface
}.

(** The [String] method of an interface type, [TypeString(t, nil)]: the
    declared methods, then the embedded types, between braces; packages
    are written by their full path. *)
Definition InterfaceString (t : gotypes.Interface) : string :=
  gotypes.TypeString (gotypes.InterfaceType t) None.

Section Run.
Variable env : Env.
Variable stamp : string.  (* date and time, as the logger writes them *)

Definition log_Printf (msg : string) : M unit :=
  emit (Log (stamp +:+ msg +:+
             (if gostrings.HasSuffix msg nl then "" else nl))).

Definition log_Fatalf {A} (msg : string) : M A :=
  log_Printf msg ;;; os_Exit 1.

(** [typeName = flag.String("type", "", ...)]: the address of the
    variable holding the flag value; [flag.String] never returns nil. *)
Definition typeName_ptr : option string := Some (typeName env).

Definition init (g : Generator) (target0 : string) : M Generator :=
  emit Load ;;;
  match packages_Load env with
  | inl err =>
      log_Printf ("Failed to load packages - " +:+ err) ;;; os_Exit 1
  | inr packs =>
      match packs with
      | [p0] =>
          match gopackages.Scope p0 !! target0 with
          | None =>
              log_Fatalf ("Couldn't find target object '" +:+ target0 +:+
                          "' in source file")
          | Some obj =>
              match gotypes.ObjUnderlying obj with
              | gotypes.UOther _ =>
                  log_Fatalf ("Provided target object '" +:+ target0 +:+
                              "' is not an interface")
              | gotypes.UInterface iFace =>
                  ret {| p := Some p0; target := Some iFace |}
              end
          end
      | _ =>
          log_Printf ("Loaded package length is not 1, but " +:+
                      itoa (List.length packs)) ;;;
          os_Exit 1
      end
  end.

(** [fmt.Println(g.target)] *)
Definition Println (t : option gotypes.Interface) : M unit :=
  fun w =>
    ({| files := files w;
        stdout := stdout w +:+
                  match t with
                  | Some i => InterfaceString i
                  | None => "<nil>"
                  end +:+ nl;
        trace := trace w |}, Done tt).

Definition main : M unit :=
  flag_Parse_ (flag_Parse env) ;;;
  match typeName_ptr with
  | None =>
      (* typeName == nil *)
      emit Usage ;;; log_Printf "no type name supplied" ;;; os_Exit 1
  | Some name =>
      let* g := init {| p := None; target := None |} name in
      Println (target g)
  end.

Definition run (w : World) : World * Z :=
  match main w with
  | (w', Done _) => (w', 0%Z)
  | (w', Exit c) => (w', c)
  end.
End Run.

End Unnamed000.

(** ** What the specification says, written out for comparison *)

Module Spec.

Import gotypes.

(** Type rendering under the qualification policy: a type of the invoking
    package is unqualified, a type of another package is prefixed with
    that package's short name, and composite types qualify their
    constituents the same way. *)
Section Qualified.
Variable own : string.  (* the invoking package *)

Definition qualifiedName (pkg : option Package) (name : string) : string :=
  match pkg with
  | None => name
  | Some q =>
      if String.eqb (Path q) own then name
      else Name q +:+ "." +:+ name
  end.

Fixpoint qualified (t : type) : string :=
  match t with
  | Basic n => n
  | Named pkg n targs =>
      qualifiedName pkg n +:+
      match targs with
      | [] => ""
      | _ => "[" +:+ listWith ", " qualified true targs +:+ "]"
      end
  | Pointer e => "*" +:+ qualified e
  | Slice e => "[]" +:+ qualified e
  | Array n e => "[" +:+ itoa n +:+ "]" +:+ qualified e
  | Map k e => "map[" +:+ qualified k +:+ "]" +:+ qualified e
  | Chan d e =>
      match d with
      | SendRecv =>
          match e with
          | Chan RecvOnly _ => "chan (" +:+ qualified e +:+ ")"
          | _ => "chan " +:+ qualified e
          end
      | SendOnly => "chan<- " +:+ qualified e
      | RecvOnly => "<-chan " +:+ qualified e
      end
  | Func_ sig => "func" +:+ signatureWith qualified sig
  | Struct fields =>
      "struct{" +:+ listWith "; " (fieldWith qualified) true fields +:+ "}"
  | Union terms => listWith " | " (termWith qualified) true terms
  | InterfaceT methods embeddeds =>
      "interface{" +:+
      listWith "; " (methodWith qualified) true methods +:+
      listWith "; " qualified (match methods with [] => true | _ => false end)
        embeddeds +:+
      "}"
  end.
End Qualified.

(** Every package a signature mentions has a name (a Go package clause
    always gives one). *)
Definition signatureNamed (named : type -> bool) (sig : Signature) : bool :=
  forallb (fun v => named (snd v)) (Params sig) &&
  forallb (fun v => named (snd v)) (Results sig).

(** Every package a type mentions has a name. *)
Fixpoint packagesNamed (t : type) : bool :=
  match t with
  | Basic _ => true
  | Named pkg _ targs =>
      match pkg with
      | Some q => negb (String.eqb (Name q) "")
      | None => true
      end && forallb packagesNamed targs
  | Pointer e | Slice e | Array _ e | Chan _ e => packagesNamed e
  | Map k e => packagesNamed k && packagesNamed e
  | Func_ sig => signatureNamed packagesNamed sig
  | Struct fields => forallb (fun f => packagesNamed (FieldType f)) fields
  | Union terms => forallb (fun t => packagesNamed (snd t)) terms
  | InterfaceT methods embeddeds =>
      forallb (fun m => signatureNamed packagesNamed (snd m)) methods &&
      forallb packagesNamed embeddeds
  end.

(** The synthesized names [a0], [a1], ... *)
Definition argName (i : nat) : string := "a" +:+ itoa i.

(** The argument list of a call with [n] arguments: [a0, a1, ...]. *)
Definition syntheticArgs (n : nat) : string :=
  gostrings.Join (List.map argName (seq 0 n)) ", ".

(** The parameter list for parameter types already rendered:
    [a0 T0, a1 T1, ...]. *)
Definition syntheticParams (rendered : list string) : string :=
  gostrings.Join
    (List.map (fun it => argName (fst it) +:+ " " +:+ snd it)
              (combine (seq 0 (List.length rendered)) rendered)) ", ".

(** The result-type rule: nothing for no result, the type itself for one
    result, the comma-joined types in parentheses for more. *)
Definition resultType (rendered : list string) : string :=
  match rendered with
  | [] => ""
  | [t] => t
  | ts => "(" +:+ gostrings.Join ts ", " +:+ ")"
  end.

(** A variable as a signature declares it: its name, when it has one,
    and its type. *)
Definition declaredVar (render : type -> string) (v : string * type)
  : string :=
  (if String.eqb (fst v) "" then "" else fst v +:+ " ") +:+ render (snd v).

(** The last parameter of a variadic signature: its name, when it has
    one, three dots and the element type of its slice type. *)
Definition declaredVariadic (render : type -> string) (v : string * type)
  : string :=
  (if String.eqb (fst v) "" then "" else fst v +:+ " ") +:+
  match snd v with
  | Slice e => "..." +:+ render e
  | t => render t +:+ "..."
  end.

(** The parameters of a signature as declared, one by one. *)
Fixpoint declaredList (render : type -> string) (variadic : bool)
  (vs : list (string * type)) : list string :=
  match vs with
  | [] => []
  | [v] =>
      [if variadic then declaredVariadic render v else declaredVar render v]
  | v :: rest => declaredVar render v :: declaredList render variadic rest
  end.

Definition declaredParams (render : type -> string) (variadic : bool)
  (vs : list (string * type)) : string :=
  gostrings.Join (declaredList render variadic vs) ", ".

(** The results of a signature as declared: nothing, a single unnamed
    type after a space, or the variables between parentheses. *)
Definition declaredResults (render : type -> string)
  (rs : list (string * type)) : string :=
  match rs with
  | [] => ""
  | [(n, r)] =>
      if String.eqb n "" then " " +:+ render r
      else " (" +:+ declaredVar render (n, r) +:+ ")"
  | _ => " (" +:+ gostrings.Join (List.map (declaredVar render) rs) ", " +:+ ")"
  end.

(** The handler-type alias of a method, its types written by [render]:
    the signature as the interface declares it, names included. *)
Definition handlerAlias (render : type -> string) (fn : Func) : string :=
  "type " +:+ FuncName fn +:+ "Handler func(" +:+
  declaredParams render (Variadic (FuncType fn)) (Params (FuncType fn)) +:+
  ")" +:+ declaredResults render (Results (FuncType fn)) +:+ nl.

(** A method implementation of the wrapper: on the receiver [recv] of
    type [recvType], the method [name] with the parameter list [params];
    after the parameters comes nothing, or a space and the result type;
    the body binds [fun] to the delegate's method, replaces it by what the
    override field makes of it when that field is set, and calls it on
    [args], returning what it returns when there is a result type.  An
    empty line follows. *)
Definition methodText (recv recvType name params : string)
  (result : option string) (args : string) : string :=
  ("func (" +:+ recv +:+ " *" +:+ recvType +:+ ") " +:+ name +:+
   "(" +:+ params +:+ ")" +:+
   match result with None => "" | Some r => " " +:+ r end +:+ " {" +:+ nl) +:+
  (tab +:+ "fun := " +:+ recv +:+ ".wrapped." +:+ name +:+ nl) +:+
  (tab +:+ "if " +:+ recv +:+ "." +:+ name +:+ "Middleware != nil {" +:+ nl)
  +:+
  (tab +:+ tab +:+ "fun = " +:+ recv +:+ "." +:+ name +:+ "Middleware(fun)"
   +:+ nl) +:+
  (tab +:+ "}" +:+ nl) +:+
  (tab +:+ match result with None => "" | Some _ => "return " end +:+
   "fun(" +:+ args +:+ ")" +:+ nl) +:+
  ("}" +:+ nl) +:+
  nl.

(** The implementation of the method [fn], its types written by
    [render]: the parameters are [a0], [a1], ... with the method's
    parameter types, the result type follows the result-type rule, and
    the arguments are the parameters in their order. *)
Definition methodImpl (recv recvType : string) (render : type -> string)
  (fn : Func) : string :=
  let sig := FuncType fn in
  methodText recv recvType (FuncName fn)
    (syntheticParams (List.map (fun v => render (snd v)) (Params sig)))
    (match Results sig with
     | [] => None
     | rs => Some (resultType (List.map (fun v => render (snd v)) rs))
     end)
    (syntheticArgs (List.length (Params sig))).

(** The override field of a method in the wrapper struct. *)
Definition overrideField (fn : Func) : string :=
  tab +:+ FuncName fn +:+ "Middleware func(" +:+ FuncName fn +:+
  "Handler) " +:+ FuncName fn +:+ "Handler" +:+ nl.

(** The constructor function of the wrapper of [name]. *)
Definition constructor (name : string) : string :=
  ("// Wrap" +:+ name +:+ " returns the passed " +:+ name +:+
   " wrapped in the middleware defined in " +:+ name +:+ "Middleware" +:+ nl)
  +:+
  ("func Wrap" +:+ name +:+ "(toWrap " +:+ name +:+ ", wrapper " +:+ name +:+
   "Middleware) " +:+ name +:+ " {" +:+ nl) +:+
  (tab +:+ "wrapper.wrapped = toWrap" +:+ nl) +:+
  (tab +:+ "return &wrapper" +:+ nl) +:+
  ("}" +:+ nl).

(** The wrapper type up to its override fields: a comment, the opening
    of the struct, the delegate field and an empty line. *)
Definition structHeader (name : string) : string :=
  ("// " +:+ name +:+ "Middleware implements " +:+ name +:+ nl) +:+
  ("type " +:+ name +:+ "Middleware struct {" +:+ nl) +:+
  (tab +:+ "wrapped " +:+ name +:+ nl) +:+
  nl.

(** The first line of the generated file: the comment naming the command
    line. *)
Definition headerComment (args : list string) : string :=
  "// Code generated by " +:+ dquote +:+ "middlewarer " +:+
  gostrings.Join args " " +:+ dquote +:+ "; DO NOT EDIT." +:+ nl.

(** The package clause. *)
Definition packageClause (pkgName : string) : string :=
  "package " +:+ pkgName +:+ nl.

(** The header of the generated file: the comment naming the command
    line, then the package clause on the next line. *)
Definition fileHeader (args : list string) (pkgName : string) : string :=
  headerComment args +:+ packageClause pkgName.

(** The ways resolution fails, in the order they are checked. *)
Inductive ResolutionError :=
| LoadFailure (err : string)
| AmbiguousUnit (units : nat)
| NotFound
| NotAContract
| EmptyContract.

(** TargetResolver: exactly one unit, the name in its scope, an interface
    shape, and an interface that the test [isEmpty] lets through. *)
Definition TargetResolver (isEmpty : Interface -> bool)
  (load : string + list gopackages.Package) (name : string)
  : ResolutionError + (gopackages.Package * Interface) :=
  match load with
  | inl err => inl (LoadFailure err)
  | inr units =>
      match units with
      | [u] =>
          match gopackages.Scope u !! name with
          | None => inl NotFound
          | Some obj =>
              match ObjUnderlying obj with
              | UOther _ => inl NotAContract
              | UInterface i =>
                  if isEmpty i then inl EmptyContract else inr (u, i)
              end
          end
      | _ => inl (AmbiguousUnit (List.length units))
      end
  end.

(** The test of the specification: the interface has no method. *)
Definition hasNoMethod (i : Interface) : bool := (NumMethods i =? 0)%nat.

(** The diagnostic line of each failure. *)
Definition diagnostic (name : string) (e : ResolutionError) : string :=
  match e with
  | LoadFailure err => "Failed to load packages - " +:+ err
  | AmbiguousUnit n => "Loaded package length is not 1, but " +:+ itoa n
  | NotFound =>
      "Couldn't find target object '" +:+ name +:+ "' in source file"
  | NotAContract =>
      "Provided target object '" +:+ name +:+ "' is not an interface"
  | EmptyContract => "Trying to generate middlewarer for an empty interface"
  end.

(** Two failures are of the same kind. *)
Definition sameKind (e1 e2 : ResolutionError) : bool :=
  match e1, e2 with
  | LoadFailure _, LoadFailure _
  | AmbiguousUnit _, AmbiguousUnit _
  | NotFound, NotFound
  | NotAContract, NotAContract
  | EmptyContract, EmptyContract => true
  | _, _ => false
  end.

(** Two methods that differ at most in the names their source gives to
    parameters. *)
Definition sameUpToParamNames (f1 f2 : Func) : Prop :=
  FuncName f1 = FuncName f2 /\
  List.map snd (Params (FuncType f1)) = List.map snd (Params (FuncType f2)) /\
  Variadic (FuncType f1) = Variadic (FuncType f2) /\
  Results (FuncType f1) = Results (FuncType f2).

End Spec.

(** ** The Go statements the method templates spell

    A small abstract syntax for the body of a generated method, its
    printing, how Go's type checker judges it, and what running it does.
    Variables are resolved: the receiver, the local handler variable [fun]
    and the parameters [a<i>] are distinct variables. *)

Module GoAst.

Inductive expr :=
| Recv                                  (* the receiver variable *)
| Handler                               (* the local variable fun *)
| Arg (i : nat)                         (* the parameter a<i> *)
| Sel (e : expr) (name : string)        (* e.name *)
| Call (f : expr) (args : list expr).   (* f(args) *)

Inductive stmt :=
| Define (e : expr)                     (* fun := e *)
| Assign (e : expr)                     (* fun = e *)
| IfNotNil (c : expr) (body : stmt)     (* if c != nil { body } *)
| Return (e : expr)                     (* return e *)
| ExprStmt (e : expr).                  (* e *)

Section Printing.
Variable recv : string.  (* the name of the receiver variable *)

Fixpoint exprString (e : expr) : string :=
  match e with
  | Recv => recv
  | Handler => "fun"
  | Arg i => Spec.argName i
  | Sel e n => exprString e +:+ "." +:+ n
  | Call f args =>
      exprString f +:+ "(" +:+
      gostrings.Join (List.map exprString args) ", " +:+ ")"
  end.

Fixpoint tabs (depth : nat) : string :=
  match depth with
  | O => ""
  | S d => tab +:+ tabs d
  end.

(** A statement on its own line(s), indented by [depth] tabs. *)
Fixpoint stmtString (depth : nat) (s : stmt) : string :=
  match s with
  | Define e => tabs depth +:+ "fun := " +:+ exprString e +:+ nl
  | Assign e => tabs depth +:+ "fun = " +:+ exprString e +:+ nl
  | IfNotNil c body =>
      tabs depth +:+ "if " +:+ exprString c +:+ " != nil {" +:+ nl +:+
      stmtString (S depth) body +:+
      tabs depth +:+ "}" +:+ nl
  | Return e => tabs depth +:+ "return " +:+ exprString e +:+ nl
  | ExprStmt e => tabs depth +:+ exprString e +:+ nl
  end.

Definition blockString (body : list stmt) : string :=
  String.concat "" (List.map (stmtString 1) body).

(** A method declaration on a pointer receiver, followed by a blank
    line.  [result] is the result type as written, if there is one. *)
Definition methodString (recvType name params : string)
  (result : option string) (body : list stmt) : string :=
  "func (" +:+ recv +:+ " *" +:+ recvType +:+ ") " +:+ name +:+
  "(" +:+ params +:+ ")" +:+
  match result with None => "" | Some r => " " +:+ r end +:+
  " {" +:+ nl +:+
  blockString body +:+
  "}" +:+ nl +:+
  nl.
End Printing.

(** The static types the body of a wrapper method deals in. *)
Inductive ty :=
| TWrapper                    (* the receiver: a pointer to the wrapper *)
| TContract                   (* the wrapped interface *)
| THandler                    (* the handler type: the method's signature *)
| TDecorator                  (* func(Handler) Handler *)
| TValue (t : gotypes.type)   (* the type of a parameter *)
| TResults.                   (* what a call of the handler yields *)

(** The types of argument expressions, when each is a plain value. *)
Definition typesWith (typeOf : expr -> option ty)
  : list expr -> option (list gotypes.type) :=
  fix go (es : list expr) : option (list gotypes.type) :=
    match es with
    | [] => Some []
    | e :: rest =>
        match typeOf e, go rest with
        | Some (TValue t), Some ts => Some (t :: ts)
        | _, _ => None
        end
    end.

(** Values, kept symbolic: a call is recorded, and its result stands for
    whatever the callee returns. *)
Inductive value :=
| VReceiver                                 (* the wrapper *)
| VDelegate                                 (* its field wrapped *)
| VMethod (name : string)                   (* a method value of the delegate *)
| VOverride (field : string)                (* what an override field holds *)
| VNil
| VArg (i : nat)                            (* the i-th argument received *)
| VResult (f : value) (args : list value)   (* what f(args) returned *)
| VSlice (elems : list value).              (* a slice built by a call *)

Definition isNil (v : value) : bool :=
  match v with VNil => true | _ => false end.

(** The state of one execution of a method body: the local handler
    variable and the calls made so far, oldest first. *)
Record state := {
  handler : value;
  calls : list (value * list value)
}.

(** The arguments of a call, evaluated left to right by [ev]. *)
Definition evalArgsWith (ev : expr -> state -> value * state)
  : list expr -> state -> list value * state :=
  fix go (es : list expr) (st : state) : list value * state :=
    match es with
    | [] => ([], st)
    | e :: rest =>
        let '(v, st1) := ev e st in
        let '(vs, st2) := go rest st1 in
        (v :: vs, st2)
    end.

Section Method.
(** The interface method the wrapper method implements: the generated
    declaration gives the parameter [a<i>] the type of the method's
    [i]-th parameter, and the handler has the method's signature. *)
Variable method : gotypes.Func.

(** Go's assignability of a value of one type to a variable of another,
    as the type checker decides it. *)
Variable assignable : gotypes.type -> gotypes.type -> bool.

Definition paramType (i : nat) : option gotypes.type :=
  snd <$> (gotypes.Params (gotypes.FuncType method) !! i).

(** Whether arguments of the types [vs] may be passed, as they stand, to
    a function with the parameters [params]: one argument per parameter,
    each assignable to it; for a variadic function the arguments from the
    last parameter on, any number of them, must each be assignable to the
    element type of that parameter. *)
Fixpoint argsFit (params : list gotypes.type) (variadic : bool)
  (vs : list gotypes.type) : bool :=
  match params with
  | [] => match vs with [] => true | _ => false end
  | t :: params' =>
      if variadic && match params' with [] => true | _ => false end
      then
        match t with
        | gotypes.Slice e => forallb (fun v => assignable v e) vs
        | _ => false
        end
      else
        match vs with
        | v :: vs' => assignable v t && argsFit params' variadic vs'
        | [] => false
        end
  end.

Section Expr.
Variable defined : bool.  (* whether [fun] is declared at this point *)

(** The type of an expression, if it has one. *)
Fixpoint typeOf (e : expr) : option ty :=
  match e with
  | Recv => Some TWrapper
  | Handler => if defined then Some THandler else None
  | Arg i => TValue <$> paramType i
  | Sel e n =>
      match typeOf e with
      | Some TWrapper =>
          if String.eqb n "wrapped" then Some TContract
          else if String.eqb n (gotypes.FuncName method +:+ "Middleware")
               then Some TDecorator
               else None
      | Some TContract =>
          if String.eqb n (gotypes.FuncName method) then Some THandler
          else None
      | _ => None
      end
  | Call f args =>
      match typeOf f with
      | Some THandler =>
          match typesWith typeOf args with
          | Some vs =>
              if argsFit
                   (List.map snd (gotypes.Params (gotypes.FuncType method)))
                   (gotypes.Variadic (gotypes.FuncType method)) vs
              then Some TResults
              else None
          | None => None
          end
      | Some TDecorator =>
          match args with
          | [a] =>
              match typeOf a with
              | Some THandler => Some THandler
              | _ => None
              end
          | _ => None
          end
      | _ => None
      end
  end.
End Expr.

(** A statement checked with [fun] declared or not; when the statement is
    accepted, whether [fun] is declared after it. *)
Fixpoint checkStmt (defined : bool) (s : stmt) : option bool :=
  match s with
  | Define e =>
      if defined then None
      else match typeOf defined e with
           | Some THandler => Some true
           | _ => None
           end
  | Assign e =>
      match typeOf defined e with
      | Some THandler => if defined then Some true else None
      | _ => None
      end
  | IfNotNil c body =>
      match typeOf defined c with
      | Some TDecorator | Some THandler =>
          match checkStmt defined body with
          | Some _ => Some defined
          | None => None
          end
      | _ => None
      end
  | Return e =>
      match gotypes.Results (gotypes.FuncType method), typeOf defined e with
      | _ :: _, Some TResults => Some defined
      | _, _ => None
      end
  | ExprStmt e =>
      match e, typeOf defined e with
      | Call _ _, Some _ => Some defined
      | _, _ => None
      end
  end.

Fixpoint checkBlock (defined : bool) (body : list stmt) : bool :=
  match body with
  | [] => true
  | s :: rest =>
      match checkStmt defined s with
      | Some d => checkBlock d rest
      | None => false
      end
  end.

(** Whether the type checker accepts the body: every statement is well
    typed, and a method with results ends in a [return]. *)
Definition typeChecks (body : list stmt) : bool :=
  checkBlock false body &&
  match gotypes.Results (gotypes.FuncType method), List.last body (Return Recv)
  with
  | [], _ => true
  | _ :: _, Return _ => true
  | _ :: _, _ => false
  end.

Section Running.
(** Which override fields of the receiver hold a function. *)
Variable isSet : string -> bool.

Definition select (v : value) (name : string) : value :=
  match v with
  | VReceiver =>
      if String.eqb name "wrapped" then VDelegate
      else if isSet name then VOverride name else VNil
  | VDelegate => VMethod name
  | _ => VNil
  end.

(** The function value has the method's signature: the delegate's method
    and what an override returns for it. *)
Definition hasMethodSignature (f : value) : bool :=
  match f with
  | VMethod _ | VResult (VOverride _) _ => true
  | _ => false
  end.

(** The argument values as the callee receives them.  A call of a variadic
    function that passes its arguments as they stand hands the callee the
    values from the last parameter on as one new slice. *)
Definition received (f : value) (vs : list value) : list value :=
  if hasMethodSignature f && gotypes.Variadic (gotypes.FuncType method)
  then
    let fixed :=
      (List.length (gotypes.Params (gotypes.FuncType method)) - 1)%nat in
    (take fixed vs ++ [VSlice (drop fixed vs)])%list
  else vs.

(** Evaluation, callee first and arguments left to right. *)
Fixpoint eval (e : expr) (st : state) : value * state :=
  match e with
  | Recv => (VReceiver, st)
  | Handler => (handler st, st)
  | Arg i => (VArg i, st)
  | Sel e n => let '(v, st1) := eval e st in (select v n, st1)
  | Call f args =>
      let '(fv, st1) := eval f st in
      let '(avs, st2) := evalArgsWith eval args st1 in
      let rvs := received fv avs in
      (VResult fv rvs,
       {| handler := handler st2; calls := calls st2 ++ [(fv, rvs)] |})
  end.

(** One statement: the state after it and, for [return], the values
    returned. *)
Fixpoint exec (s : stmt) (st : state) : state * option value :=
  match s with
  | Define e | Assign e =>
      let '(v, st1) := eval e st in
      ({| handler := v; calls := calls st1 |}, None)
  | IfNotNil c body =>
      let '(v, st1) := eval c st in
      if isNil v then (st1, None) else exec body st1
  | Return e => let '(v, st1) := eval e st in (st1, Some v)
  | ExprStmt e => let '(_, st1) := eval e st in (st1, None)
  end.

Fixpoint execBlock (body : list stmt) (st : state)
  : state * option value :=
  match body with
  | [] => (st, None)
  | s :: rest =>
      match exec s st with
      | (st1, Some v) => (st1, Some v)
      | (st1, None) => execBlock rest st1
      end
  end.

(** A call of the method: [None] when the type checker rejects the body,
    so that there is no program to call; else the calls the body makes,
    each with the arguments its callee receives, and what the method
    returns. *)
Definition callMethod (body : list stmt)
  : option (list (value * list value) * option value) :=
  if typeChecks body
  then
    let '(st, r) := execBlock body {| handler := VNil; calls := [] |} in
    Some (calls st, r)
  else None.
End Running.
End Method.


(** The body both method templates spell, for the method [name] with
    [nargs] parameters: [withResults] chooses between returning the
    handler's values and a bare call. *)
Definition wrapperBody (name : string) (nargs : nat) (withResults : bool)
  : list stmt :=
  let override := Sel Recv (name +:+ "Middleware") in
  let invoke := Call Handler (List.map Arg (seq 0 nargs)) in
  [ Define (Sel (Sel Recv "wrapped") name);
    IfNotNil override (Assign (Call override [Handler]));
    if withResults then Return invoke else ExprStmt invoke ].

(** The body of the wrapper method of [fn]. *)
Definition bodyOf (fn : gotypes.Func) : list stmt :=
  wrapperBody (gotypes.FuncName fn)
    (List.length (gotypes.Params (gotypes.FuncType fn)))
    (match gotypes.Results (gotypes.FuncType fn) with
     | [] => false
     | _ => true
     end).


End GoAst.

(** ** Sample inputs: the interfaces of the README and a few more *)

Module Examples.

Import gotypes.

(** The package the generator is invoked in, and two others. *)
Definition pkgExample : Package :=
  {| Path := "example.com/app"; Name := "app" |}.
Definition pkgIO : Package := {| Path := "io"; Name := "io" |}.
Definition pkgHTTP : Package := {| Path := "net/http"; Name := "http" |}.

Definition Baz : type := Named (Some pkgExample) "Baz" [].
Definition Quz : type := Named (Some pkgExample) "Quz" [].
Definition error : type := Named None "error" [].

(** [map[string][]*http.Request[Baz, io.Reader]]: a composite type over
    the invoking package, two other packages and the universe. *)
Definition requests : type :=
  Map (Basic "string")
    (Slice (Pointer (Named (Some pkgHTTP) "Request"
                       [Baz; Named (Some pkgIO) "Reader" []]))).

(** [type Foo interface { Bar(Baz) Quz }] *)
Definition Bar : Func :=
  {| FuncName := "Bar"; FuncType := MkSig [("", Baz)] false [("", Quz)] |}.
Definition Foo : Interface := declaring [Bar].

(** The same method with its parameter named: [Bar(b Baz) Quz]. *)
Definition BarNamed : Func :=
  {| FuncName := "Bar"; FuncType := MkSig [("b", Baz)] false [("", Quz)] |}.

(** [type Server interface { Init(); Request() Response }] *)
Definition Init : Func :=
  {| FuncName := "Init"; FuncType := MkSig [] false [] |}.
Definition Request : Func :=
  {| FuncName := "Request";
     FuncType :=
       MkSig [] false [("", Named (Some pkgExample) "Response" [])] |}.
Definition Server : Interface := declaring [Init; Request].

(** [Copy(dst io.Writer, src *http.Request, opts map[string][]Baz)
     (n int, err error)] *)
Definition Copy : Func :=
  {| FuncName := "Copy";
     FuncType :=
       MkSig [("dst", Named (Some pkgIO) "Writer" []);
              ("src", Pointer (Named (Some pkgHTTP) "Request" []));
              ("opts", Map (Basic "string") (Slice Baz))]
             false
             [("n", Basic "int"); ("err", error)] |}.
Definition Copier : Interface := declaring [Copy; Init].

(** [type Shuffled interface { Zed(); Alpha(); Mid() }]: the methods are
    declared in this order; the type checker has them by name. *)
Definition Zed : Func :=
  {| FuncName := "Zed"; FuncType := MkSig [] false [] |}.
Definition Alpha : Func :=
  {| FuncName := "Alpha"; FuncType := MkSig [] false [] |}.
Definition Mid : Func :=
  {| FuncName := "Mid"; FuncType := MkSig [] false [] |}.
Definition Shuffled : Interface := declaring [Zed; Alpha; Mid].

(** [type Nothing interface{}] *)
Definition Nothing : Interface := declaring [].

(** [type Text interface { ~int | ~string }]: a constraint interface; it
    has no method, and its type set is not the set of all types. *)
Definition Text : Interface :=
  {| ExplicitMethods := [];
     Embeddeds := [Union [(true, Basic "int"); (true, Basic "string")]];
     Methods := []; IsMethodSet := false |}.

(** [Logf(format string, args ...Baz)] and
    [type Logger interface { Logf(format string, args ...Baz) }] *)
Definition Logf : Func :=
  {| FuncName := "Logf";
     FuncType :=
       MkSig [("format", Basic "string"); ("args", Slice Baz)] true [] |}.
Definition Logger : Interface := declaring [Logf].

Definition object (name : string) (u : Underlying) : Object :=
  {| ObjName := name; ObjUnderlying := u |}.

Definition scope : gmap string Object :=
  <["Foo" := object "Foo" (UInterface Foo)]>
  (<["Server" := object "Server" (UInterface Server)]>
  (<["Copier" := object "Copier" (UInterface Copier)]>
  (<["Shuffled" := object "Shuffled" (UInterface Shuffled)]>
  (<["Nothing" := object "Nothing" (UInterface Nothing)]>
  (<["Text" := object "Text" (UInterface Text)]>
  (<["Logger" := object "Logger" (UInterface Logger)]>
  (<["Baz" := object "Baz" (UOther (Basic "int"))]> ∅))))))).

Definition loaded : gopackages.Package :=
  {| gopackages.Name := "app"; gopackages.PkgPath := "example.com/app";
     gopackages.Scope := scope |}.

(** [middlewarer -type=<name>] in a directory holding that one package,
    with a formatter that returns its input. *)
Definition envFor (name : string) : Env :=
  {| os_Args := ["-type=" +:+ name]; flag_Parse := Parsed;
     typeName := name; output := ""; debug := false;
     packages_Load := inr [loaded];
     os_OpenFile := fun _ => None;
     dest_Write := fun _ _ => Written;
     file_Close := fun _ => None;
     goimports := fun text => Finished text;
     unicode_ToLower := fun s => s |}.

(** [middlewarer] without arguments. *)
Definition envNoArgs : Env :=
  {| os_Args := []; flag_Parse := Parsed;
     typeName := ""; output := ""; debug := false;
     packages_Load := inr [loaded];
     os_OpenFile := fun _ => None;
     dest_Write := fun _ _ => Written;
     file_Close := fun _ => None;
     goimports := fun text => Finished text;
     unicode_ToLower := fun s => s |}.

(** A working directory that already holds generated files. *)
Definition worldOld : World :=
  {| files := <["nothing_middleware.go" := "package app // old"]>
              (<["foo_middleware.go" := "package app // old"]> ∅);
     stdout := ""; trace := [] |}.

Definition genFor (name : string) (t : Interface) : Generator :=
  withTarget (withP (withTargetName Generator_zero name) loaded) t.

(** The generator for [name] as [generateWrapperCode] sets it up before
    its loop, with the receiver [letter]. *)
Definition genReady (name letter : string) (t : Interface) : Generator :=
  {| p := loaded; target := t; targetName := name;
     targetFirstLetter := letter; structName := name +:+ "Middleware";
     wrapFunction := ""; middlewareStruct := ""; handlerFuncTypes := "";
     interfaceMethods := "" |}.

(** The generator after [generateWrapperCode] for [Server], [Foo] and
    [Shuffled]. *)
Definition generatedServer : Generator :=
  default Generator_zero
    (generateWrapperCode (envFor "Server") (genFor "Server" Server)).
Definition generatedFoo : Generator :=
  default Generator_zero
    (generateWrapperCode (envFor "Foo") (genFor "Foo" Foo)).
Definition generatedShuffled : Generator :=
  default Generator_zero
    (generateWrapperCode (envFor "Shuffled") (genFor "Shuffled" Shuffled)).

(** The names [Ärger] and [Öl] in UTF-8: both start with the byte 0xC3. *)
Definition name_Aerger : string :=
  String (ascii_of_nat 195) (String (ascii_of_nat 132) "rger").
Definition name_Oel : string :=
  String (ascii_of_nat 195) (String (ascii_of_nat 150) "l").
(** Their first letters in lower case, [ä] and [ö]. *)
Definition lower_ae : string :=
  String (ascii_of_nat 195) (String (ascii_of_nat 164) "").
Definition lower_oe : string :=
  String (ascii_of_nat 195) (String (ascii_of_nat 182) "").

End Examples.

(** ** Observations of a run *)

(** The events a run adds to the trace. *)
Definition newEvents (env : Env) (w : World) : list Event :=
  drop (List.length (trace w)) (trace (fst (run env w))).



(** The event is a call into the file system. *)
Definition isFileCall (e : Event) : bool :=
  match e with OpenFile _ | CloseFile _ => true | _ => false end.


(** The property [P] holds of every parameter and result type of a
    signature. *)
Definition signatureAll (P : gotypes.type -> Prop) (sig : gotypes.Signature)
  : Prop :=
  Forall (fun v => P (snd v)) (gotypes.Params sig) /\
  Forall (fun v => P (snd v)) (gotypes.Results sig).

(** Two writers agree on a variable: on its type and, when that is a
    slice, on the element type, which is what a variadic parameter
    shows. *)
Definition agreeOn (f f' : gotypes.type -> string) (t : gotypes.type) : Prop :=
  f t = f' t /\ forall e, t = gotypes.Slice e -> f e = f' e.

(** A signature with every package it mentions replaced by its image
    under the map [on] of types. *)
Definition mapSignature (on : gotypes.type -> gotypes.type)
  (sig : gotypes.Signature) : gotypes.Signature :=
  gotypes.MkSig
    (List.map (fun v => (fst v, on (snd v))) (gotypes.Params sig))
    (gotypes.Variadic sig)
    (List.map (fun v => (fst v, on (snd v))) (gotypes.Results sig)).

(** A type with every package it mentions replaced by its image under
    [f]. *)
Fixpoint mapPackages (f : gotypes.Package -> gotypes.Package)
  (t : gotypes.type) : gotypes.type :=
  match t with
  | gotypes.Basic n => gotypes.Basic n
  | gotypes.Named pkg n targs =>
      gotypes.Named (option_map f pkg) n (List.map (mapPackages f) targs)
  | gotypes.Pointer e => gotypes.Pointer (mapPackages f e)
  | gotypes.Slice e => gotypes.Slice (mapPackages f e)
  | gotypes.Array n e => gotypes.Array n (mapPackages f e)
  | gotypes.Map k e => gotypes.Map (mapPackages f k) (mapPackages f e)
  | gotypes.Chan d e => gotypes.Chan d (mapPackages f e)
  | gotypes.Func_ sig => gotypes.Func_ (mapSignature (mapPackages f) sig)
  | gotypes.Struct fields =>
      gotypes.Struct
        (List.map
           (fun fld =>
              gotypes.MkField (gotypes.FieldName fld)
                (mapPackages f (gotypes.FieldType fld))
                (gotypes.FieldEmbedded fld))
           fields)
  | gotypes.Union terms =>
      gotypes.Union
        (List.map (fun t => (fst t, mapPackages f (snd t))) terms)
  | gotypes.InterfaceT methods embeddeds =>
      gotypes.InterfaceT
        (List.map (fun m => (fst m, mapSignature (mapPackages f) (snd m)))
           methods)
        (List.map (mapPackages f) embeddeds)
  end.

(** ** More sample inputs *)

Module Cases.

Import gotypes.

(** [middlewarer -d -type=<name>] *)
Definition envDebug (name : string) : Env :=
  {| os_Args := ["-d"; "-type=" +:+ name]; flag_Parse := Parsed;
     typeName := name; output := ""; debug := true;
     packages_Load := inr [Examples.loaded];
     os_OpenFile := fun _ => None;
     dest_Write := fun _ _ => Written;
     file_Close := fun _ => None;
     goimports := fun text => Finished text;
     unicode_ToLower := fun s => s |}.

(** [middlewarer -type=<name> -output=out.go] on a file system where
    closing a file fails. *)
Definition envCloseFails (name : string) : Env :=
  {| os_Args := ["-type=" +:+ name; "-output=out.go"]; flag_Parse := Parsed;
     typeName := name; output := "out.go"; debug := false;
     packages_Load := inr [Examples.loaded];
     os_OpenFile := fun _ => None;
     dest_Write := fun _ _ => Written;
     file_Close := fun _ => Some "input/output error";
     goimports := fun text => Finished ("// formatted" +:+ nl +:+ text);
     unicode_ToLower := fun s => s |}.

(** [middlewarer -type=<name>] on a file system with no space left: the
    file can be created, and writing to it fails at the first byte. *)
Definition envDiskFull (name : string) : Env :=
  {| os_Args := ["-type=" +:+ name]; flag_Parse := Parsed;
     typeName := name; output := ""; debug := false;
     packages_Load := inr [Examples.loaded];
     os_OpenFile := fun _ => None;
     dest_Write := fun _ _ => WriteError 0 "no space left on device";
     file_Close := fun _ => None;
     goimports := fun text => Finished text;
     unicode_ToLower := fun s => s |}.

(** [middlewarer -type=Foo -h]: the flag package answers the request for
    help after it has set the type name. *)
Definition envHelp : Env :=
  {| os_Args := ["-type=Foo"; "-h"]; flag_Parse := HelpRequested;
     typeName := "Foo"; output := ""; debug := false;
     packages_Load := inr [Examples.loaded];
     os_OpenFile := fun _ => None;
     dest_Write := fun _ _ => Written;
     file_Close := fun _ => None;
     goimports := fun text => Finished text;
     unicode_ToLower := fun s => s |}.

(** Two packages named [rand]. *)
Definition cryptoRand : Package := {| Path := "crypto/rand"; Name := "rand" |}.
Definition mathRand : Package := {| Path := "math/rand"; Name := "rand" |}.

(** [map[string]*rand.Rand] over [math/rand]. *)
Definition rands : type :=
  Map (Basic "string") (Pointer (Named (Some mathRand) "Rand" [])).

(** [math/rand] moved to the path [crypto/rand], every name kept. *)
Definition toCrypto (pkg : Package) : Package :=
  if String.eqb (Path pkg) "math/rand"
  then {| Path := "crypto/rand"; Name := Name pkg |}
  else pkg.

End Cases.

(** Unfolds a run of [main] down to the calls of the collaborators. *)
Ltac run_unfold :=
  cbv beta iota zeta
      delta [run main bind openTrunc deferredClose Fprint log_Fatalf
             log_Printf panic os_Exit emit ret flag_Parse_].


(** * Properties *)

(** ** Byte strings *)

Lemma sapp_cons (c : ascii) (s t : string) :
  String c s +:+ t = String c (s +:+ t).
Proof. reflexivity. Qed.

Lemma sapp_nil_l (s : string) : "" +:+ s = s.
Proof. reflexivity. Qed.

Lemma sapp_nil_r (s : string) : s +:+ "" = s.
Proof. induction s as [|c s IH]; [reflexivity|]. by rewrite sapp_cons, IH. Qed.

Lemma sapp_assoc (a b c : string) : (a +:+ b) +:+ c = a +:+ (b +:+ c).
Proof.
  induction a as [|x a IH]; [reflexivity|]. by rewrite !sapp_cons, IH.
Qed.

Lemma slength_app (a b : string) :
  String.length (a +:+ b) = (String.length a + String.length b)%nat.
Proof.
  induction a as [|x a IH]; [reflexivity|].
  rewrite sapp_cons. simpl. by rewrite IH.
Qed.

Lemma substring_all (s : string) : substring 0 (String.length s) s = s.
Proof. induction s as [|c s IH]; [reflexivity|]. simpl. by rewrite IH. Qed.

Lemma substring_app_l (a b : string) :
  substring 0 (String.length a) (a +:+ b) = a.
Proof.
  induction a as [|x a IH]; [by destruct b|].
  rewrite sapp_cons. simpl. by rewrite IH.
Qed.

Lemma substring_app_r (a b : string) :
  substring (String.length a) (String.length b) (a +:+ b) = b.
Proof.
  induction a as [|x a IH]; [apply substring_all|].
  rewrite sapp_cons. simpl. exact IH.
Qed.

Lemma HasSuffix_app (a suffix : string) :
  gostrings.HasSuffix (a +:+ suffix) suffix = true.
Proof.
  unfold gostrings.HasSuffix. rewrite slength_app.
  replace (String.length a + String.length suffix - String.length suffix)%nat
    with (String.length a) by lia.
  rewrite substring_app_r, String.eqb_refl, andb_true_r.
  apply Nat.leb_le. lia.
Qed.

Lemma TrimSuffix_app (a suffix : string) :
  gostrings.TrimSuffix (a +:+ suffix) suffix = a.
Proof.
  unfold gostrings.TrimSuffix. rewrite HasSuffix_app, slength_app.
  replace (String.length a + String.length suffix - String.length suffix)%nat
    with (String.length a) by lia.
  apply substring_app_l.
Qed.

(** Writing each element followed by the separator and trimming the last
    separator is joining: the idiom of [generateMiddlewareMethod]. *)
Lemma TrimSuffix_concat_sep (xs : list string) (sep : string) :
  sep <> "" ->
  gostrings.TrimSuffix
    (String.concat "" (List.map (fun x => x +:+ sep) xs)) sep
  = gostrings.Join xs sep.
Proof.
  intros Hsep. destruct xs as [|x xs].
  - simpl. unfold gostrings.TrimSuffix, gostrings.HasSuffix.
    destruct sep; [done|]. reflexivity.
  - replace (String.concat "" (List.map (fun x => x +:+ sep) (x :: xs)))
      with (gostrings.Join (x :: xs) sep +:+ sep).
    + apply TrimSuffix_app.
    + revert x. induction xs as [|y ys IH]; intros x.
      * reflexivity.
      * change (gostrings.Join (x :: y :: ys) sep)
          with (x +:+ sep +:+ gostrings.Join (y :: ys) sep).
        rewrite !sapp_assoc, IH.
        change (List.map (fun x => x +:+ sep) (x :: y :: ys))
          with ((x +:+ sep) :: List.map (fun x => x +:+ sep) (y :: ys)).
        remember (List.map (fun x => x +:+ sep) (y :: ys)) as l eqn:El.
        destruct l as [|z l]; [discriminate|].
        simpl. by rewrite sapp_nil_l, sapp_assoc.
Qed.

Lemma concat_empty_cons (x : string) (l : list string) :
  String.concat "" (x :: l) = x +:+ String.concat "" l.
Proof. destruct l; simpl; [by rewrite sapp_nil_r | reflexivity]. Qed.

Lemma concat_empty_app (l1 l2 : list string) :
  String.concat "" (l1 ++ l2) = String.concat "" l1 +:+ String.concat "" l2.
Proof.
  induction l1 as [|x l1 IH]; [reflexivity|].
  rewrite <- app_comm_cons, !concat_empty_cons, IH. by rewrite sapp_assoc.
Qed.

(** ** The parameter loop *)

Lemma paramLoop_eq (g : Generator) (params : list (string * gotypes.type)) :
  forall (i : nat) (P A : string),
    paramLoop g i params P A =
    (P +:+ String.concat ""
             (List.map (fun x => x +:+ ", ")
                (List.map (fun it => Spec.argName (fst it) +:+ " " +:+ snd it)
                   (combine (seq i (List.length params))
                            (List.map (fun v => rendered g (snd v)) params)))),
     A +:+ String.concat ""
             (List.map (fun x => x +:+ ", ")
                (List.map Spec.argName (seq i (List.length params))))).
Proof.
  induction params as [|[n t] rest IH]; intros i P A.
  - simpl. by rewrite !sapp_nil_r.
  - cbn [paramLoop]. rewrite IH.
    cbn [List.length seq List.map combine fst snd].
    rewrite !concat_empty_cons. unfold Spec.argName, rendered.
    by rewrite !sapp_assoc.
Qed.

Lemma middlewareMethodText_eq (g : Generator) (fn : gotypes.Func) :
  let sig := gotypes.FuncType fn in
  let params :=
    Spec.syntheticParams
      (List.map (fun v => rendered g (snd v)) (gotypes.Params sig)) in
  let args := Spec.syntheticArgs (List.length (gotypes.Params sig)) in
  middlewareMethodText g fn =
  match gotypes.Results sig with
  | [] =>
      interfaceMethodFormatVoid (targetFirstLetter g) (structName g)
        (gotypes.FuncName fn) params args
  | rs =>
      interfaceMethodFormatReturn (targetFirstLetter g) (structName g)
        (gotypes.FuncName fn) params
        (Spec.resultType (List.map (fun v => rendered g (snd v)) rs)) args
  end.
Proof.
  intros sig params args. unfold middlewareMethodText.
  fold sig. rewrite paramLoop_eq, !sapp_nil_l.
  rewrite !TrimSuffix_concat_sep by discriminate.
  assert (Hp : gostrings.Join
            (List.map (fun it => Spec.argName (fst it) +:+ " " +:+ snd it)
               (combine (seq 0 (List.length (gotypes.Params sig)))
                  (List.map (fun v => rendered g (snd v)) (gotypes.Params sig))))
            ", " = params).
  { unfold params, Spec.syntheticParams. by rewrite length_map. }
  rewrite Hp. fold (Spec.syntheticArgs (List.length (gotypes.Params sig))).
  fold args.
  destruct (gotypes.Results sig) as [|r1 [|r2 rs]]; reflexivity.
Qed.


(** ** The method implementations *)

(** What one call of [generateMiddlewareMethod] writes is the method
    implementation as the specification describes it. *)
Lemma middlewareMethodText_impl (g : Generator) (fn : gotypes.Func) :
  middlewareMethodText g fn =
  Spec.methodImpl (targetFirstLetter g) (structName g) (rendered g) fn.
Proof.
  rewrite (middlewareMethodText_eq g fn). cbv zeta.
  unfold Spec.methodImpl, Spec.methodText.
  destruct (gotypes.Results (gotypes.FuncType fn)) as [|r rs].
  - unfold interfaceMethodFormatVoid. by rewrite ?sapp_assoc.
  - unfold interfaceMethodFormatReturn. by rewrite ?sapp_assoc.
Qed.

Lemma generateMiddlewareMethod_impl (g : Generator) (fn : gotypes.Func) :
  interfaceMethods (generateMiddlewareMethod g fn) =
  interfaceMethods g +:+
  Spec.methodImpl (targetFirstLetter g) (structName g) (rendered g) fn.
Proof.
  unfold generateMiddlewareMethod. cbn [interfaceMethods withInterfaceMethods].
  by rewrite middlewareMethodText_impl.
Qed.

(** C3: the result type of a generated method.  What
    [generateMiddlewareMethod] appends to the buffer of implementations is
    the method on the receiver with the parameters [a0 T0, a1 T1, ...],
    and between the closing parenthesis of the parameters and the opening
    brace of the body stands: nothing but the space before the brace for a
    method without results; the rendered type of the result, without
    parentheses, for a method with exactly one result; for a method with
    two or more results their rendered types joined by a comma and a
    space, between parentheses. *)
Theorem result_type_rule (g : Generator) (fn : gotypes.Func) :
  let sig := gotypes.FuncType fn in
  let recv := targetFirstLetter g in
  let name := gotypes.FuncName fn in
  let params :=
    Spec.syntheticParams
      (List.map (fun v => rendered g (snd v)) (gotypes.Params sig)) in
  let args := Spec.syntheticArgs (List.length (gotypes.Params sig)) in
  let results := List.map (fun v => rendered g (snd v)) (gotypes.Results sig) in
  let appended (result : option string) :=
    interfaceMethods (generateMiddlewareMethod g fn) =
    interfaceMethods g +:+
    Spec.methodText recv (structName g) name params result args in
  (gotypes.Results sig = [] -> appended None) /\
  (forall r, gotypes.Results sig = [r] -> appended (Some (rendered g (snd r))))
  /\
  (forall r1 r2, gotypes.Results sig = [r1; r2] ->
     appended
       (Some ("(" +:+ rendered g (snd r1) +:+ ", " +:+ rendered g (snd r2)
              +:+ ")"))) /\
  (forall r1 r2 rs, gotypes.Results sig = r1 :: r2 :: rs ->
     appended (Some ("(" +:+ gostrings.Join results ", " +:+ ")"))).
Proof.
  intros sig recv name params args results appended. subst appended.
  cbv beta. rewrite generateMiddlewareMethod_impl.
  unfold Spec.methodImpl. fold sig recv name params args.
  split; [|split; [|split]].
  - by intros ->.
  - by intros r ->.
  - intros r1 r2 ->. cbn [List.map Spec.resultType gostrings.Join].
    by rewrite !sapp_assoc.
  - intros r1 r2 rs E. subst results. by rewrite E.
Qed.

Lemma result_type_rule_witness :
  interfaceMethods
    (generateMiddlewareMethod (Examples.genReady "Server" "s" Examples.Server)
       Examples.Init) =
  Spec.methodText "s" "ServerMiddleware" "Init" "" None "" /\
  interfaceMethods
    (generateMiddlewareMethod (Examples.genReady "Foo" "f" Examples.Foo)
       Examples.Bar) =
  Spec.methodText "f" "FooMiddleware" "Bar" "a0 Baz" (Some "Quz") "a0" /\
  interfaceMethods
    (generateMiddlewareMethod (Examples.genReady "Copier" "c" Examples.Copier)
       Examples.Copy) =
  Spec.methodText "c" "CopierMiddleware" "Copy"
    "a0 io.Writer, a1 *http.Request, a2 map[string][]Baz"
    (Some "(int, error)") "a0, a1, a2".
Proof.
  split; [|split].
  - exact (proj1 (result_type_rule
                    (Examples.genReady "Server" "s" Examples.Server)
                    Examples.Init) eq_refl).
  - exact (proj1 (proj2 (result_type_rule
                    (Examples.genReady "Foo" "f" Examples.Foo)
                    Examples.Bar)) _ eq_refl).
  - exact (proj1 (proj2 (proj2 (result_type_rule
                    (Examples.genReady "Copier" "c" Examples.Copier)
                    Examples.Copy))) _ _ eq_refl).
Defined.

(** The text of the three cases, on the methods of the README. *)
Example result_types_of_samples :
  Spec.methodText "f" "FooMiddleware" "Bar" "a0 Baz" (Some "Quz") "a0" =
    ("func (f *FooMiddleware) Bar(a0 Baz) Quz {" +:+ nl) +:+
    (tab +:+ "fun := f.wrapped.Bar" +:+ nl) +:+
    (tab +:+ "if f.BarMiddleware != nil {" +:+ nl) +:+
    (tab +:+ tab +:+ "fun = f.BarMiddleware(fun)" +:+ nl) +:+
    (tab +:+ "}" +:+ nl) +:+
    (tab +:+ "return fun(a0)" +:+ nl) +:+
    ("}" +:+ nl) +:+
    nl /\
  Spec.methodText "s" "ServerMiddleware" "Init" "" None "" =
    ("func (s *ServerMiddleware) Init() {" +:+ nl) +:+
    (tab +:+ "fun := s.wrapped.Init" +:+ nl) +:+
    (tab +:+ "if s.InitMiddleware != nil {" +:+ nl) +:+
    (tab +:+ tab +:+ "fun = s.InitMiddleware(fun)" +:+ nl) +:+
    (tab +:+ "}" +:+ nl) +:+
    (tab +:+ "fun()" +:+ nl) +:+
    ("}" +:+ nl) +:+
    nl.
Proof. split; vm_compute; reflexivity. Qed.

(** ** The body of a method implementation *)



Lemma evalArgs_Arg (fn : gotypes.Func) (isSet : string -> bool)
  (l : list nat) (st : GoAst.state) :
  GoAst.evalArgsWith (GoAst.eval fn isSet) (List.map GoAst.Arg l) st
  = (List.map GoAst.VArg l, st).
Proof.
  unfold GoAst.evalArgsWith.
  induction l as [|i l IH]; [reflexivity|].
  cbn [List.map GoAst.eval]. by rewrite IH.
Qed.

Lemma override_field_not_wrapped (name : string) :
  String.eqb (name +:+ "Middleware") "wrapped" = false.
Proof.
  apply String.eqb_neq. intros E.
  apply (f_equal String.length) in E. rewrite slength_app in E.
  simpl in E. lia.
Qed.

(** The parameters [a0], [a1], ... have the types of the method's
    parameters. *)
Lemma typesWith_params (fn : gotypes.Func)
  (assignable : gotypes.type -> gotypes.type -> bool) (defined : bool)
  (ps : list (string * gotypes.type)) :
  forall pre : list (string * gotypes.type),
    gotypes.Params (gotypes.FuncType fn) = (pre ++ ps)%list ->
    GoAst.typesWith (GoAst.typeOf fn assignable defined)
      (List.map GoAst.Arg (seq (List.length pre) (List.length ps)))
    = Some (List.map snd ps).
Proof.
  induction ps as [|q ps IH]; intros pre Hps; [reflexivity|].
  cbn [List.length seq List.map GoAst.typesWith GoAst.typeOf].
  unfold GoAst.typesWith in IH |- *.
  specialize (IH (pre ++ [q])%list).
  rewrite length_app, Nat.add_1_r in IH.
  rewrite IH by (by rewrite <- app_assoc).
  unfold GoAst.paramType. rewrite Hps, lookup_app_r, Nat.sub_diag by lia.
  reflexivity.
Qed.


(** Passed as they stand to a variadic function, they fit exactly when the
    slice that is the last of them may stand for one element of itself. *)
Lemma argsFit_variadic (assignable : gotypes.type -> gotypes.type -> bool)
  (ts : list gotypes.type) (e : gotypes.type) :
  Forall (fun t => assignable t t = true) ts ->
  GoAst.argsFit assignable (ts ++ [gotypes.Slice e]) true
    (ts ++ [gotypes.Slice e])
  = assignable (gotypes.Slice e) e.
Proof.
  induction 1 as [|t ts Ht _ IH].
  - cbn. by rewrite andb_true_r.
  - cbn [app GoAst.argsFit andb].
    destruct (ts ++ [gotypes.Slice e])%list eqn:E;
      [by destruct ts|].
    cbn [andb]. by rewrite Ht, IH.
Qed.

(** The type checker accepts the body exactly when the parameters, passed
    on as they stand, fit the signature of the method. *)
Lemma typeChecks_bodyOf (fn : gotypes.Func)
  (assignable : gotypes.type -> gotypes.type -> bool) :
  let sig := gotypes.FuncType fn in
  GoAst.typeChecks fn assignable (GoAst.bodyOf fn) =
  GoAst.argsFit assignable (List.map snd (gotypes.Params sig))
    (gotypes.Variadic sig) (List.map snd (gotypes.Params sig)).
Proof.
  cbv zeta. unfold GoAst.typeChecks, GoAst.bodyOf, GoAst.wrapperBody.
  cbn [GoAst.checkBlock GoAst.checkStmt GoAst.typeOf].
  rewrite !override_field_not_wrapped, !String.eqb_refl.
  change ("wrapped" =? "wrapped")%string with true. cbv iota.
  rewrite ?String.eqb_refl.
  pose proof (typesWith_params fn assignable true
                (gotypes.Params (gotypes.FuncType fn)) [] eq_refl) as Hts.
  cbn [List.length] in Hts.
  destruct (gotypes.Results (gotypes.FuncType fn)) as [|r rs] eqn:Hres;
    cbn [GoAst.checkBlock GoAst.checkStmt GoAst.typeOf List.last];
    rewrite ?Hres, Hts;
    destruct (GoAst.argsFit _ _ _ _); reflexivity.
Qed.

(** What a call of a generated method does when the type checker accepts
    its body, whether the override field is set or not. *)
Lemma callMethod_bodyOf (fn : gotypes.Func)
  (assignable : gotypes.type -> gotypes.type -> bool)
  (isSet : string -> bool) :
  let sig := gotypes.FuncType fn in
  let name := gotypes.FuncName fn in
  let n := List.length (gotypes.Params sig) in
  let field := name +:+ "Middleware" in
  let default := GoAst.VMethod name in
  let decorated := GoAst.VResult (GoAst.VOverride field) [default] in
  let args := List.map GoAst.VArg (seq 0 n) in
  let received :=
    if gotypes.Variadic sig
    then (take (n - 1) args ++ [GoAst.VSlice (drop (n - 1) args)])%list
    else args in
  let withResults :=
    match gotypes.Results sig with [] => false | _ => true end in
  GoAst.callMethod fn assignable isSet (GoAst.bodyOf fn) =
  if GoAst.argsFit assignable (List.map snd (gotypes.Params sig))
       (gotypes.Variadic sig) (List.map snd (gotypes.Params sig))
  then
    Some (if isSet field
          then ([(GoAst.VOverride field, [default]); (decorated, received)],
                if withResults then Some (GoAst.VResult decorated received)
                else None)
          else ([(default, received)],
                if withResults then Some (GoAst.VResult default received)
                else None))
  else None.
Proof.
  intros sig name n field default decorated args received withResults.
  unfold GoAst.callMethod. rewrite typeChecks_bodyOf. fold sig.
  destruct (GoAst.argsFit _ _ _ _); [|reflexivity].
  unfold GoAst.bodyOf, GoAst.wrapperBody. fold sig name n withResults.
  cbn [GoAst.execBlock GoAst.exec GoAst.eval GoAst.select GoAst.handler
       GoAst.calls].
  rewrite !override_field_not_wrapped.
  change ("wrapped" =? "wrapped")%string with true. cbv iota.
  fold field.
  destruct (isSet field); destruct withResults;
    cbn [GoAst.isNil GoAst.evalArgsWith GoAst.eval GoAst.exec GoAst.select
         GoAst.handler GoAst.calls app GoAst.execBlock];
    rewrite ?evalArgs_Arg;
    unfold GoAst.received; fold sig n;
    cbn [GoAst.hasMethodSignature andb GoAst.handler GoAst.calls app];
    subst received; destruct (gotypes.Variadic sig); reflexivity.
Qed.



(** C4 fails on variadic methods.  For
    [Logf(format string, args ...Baz)] the handler type is variadic, as
    the alias says, but the implementation declares the last parameter as
    the slice [a1 []Baz] and passes it on as it stands, [fun(a0, a1)], not
    as [a1...].  The type checker accepts that call only if a [[]Baz] may
    stand for one [Baz], which Go denies for a type [Baz] that is neither
    an interface nor itself that slice; and were it accepted, the
    delegate's method would receive a new slice with the slice [a1] as its
    one element.  In neither case does the delegate receive the arguments
    of the method. *)
Theorem variadic_method_body :
  let g := Examples.genReady "Logger" "l" Examples.Logger in
  let g' := generateInterfaceMethod g Examples.Logf in
  let body := GoAst.bodyOf Examples.Logf in
  let slice := gotypes.Slice Examples.Baz in
  handlerFuncTypes g' =
    "type LogfHandler func(format string, args ...Baz)" +:+ nl /\
  interfaceMethods g' =
    ("func (l *LoggerMiddleware) Logf(a0 string, a1 []Baz) {" +:+ nl) +:+
    (tab +:+ "fun := l.wrapped.Logf" +:+ nl) +:+
    (tab +:+ "if l.LogfMiddleware != nil {" +:+ nl) +:+
    (tab +:+ tab +:+ "fun = l.LogfMiddleware(fun)" +:+ nl) +:+
    (tab +:+ "}" +:+ nl) +:+
    (tab +:+ "fun(a0, a1)" +:+ nl) +:+
    ("}" +:+ nl) +:+
    nl /\
  interfaceMethods g' =
    GoAst.methodString "l" "LoggerMiddleware" "Logf" "a0 string, a1 []Baz"
      None body /\
  (forall assignable isSet,
     assignable slice Examples.Baz = false ->
     GoAst.callMethod Examples.Logf assignable isSet body = None) /\
  (forall assignable isSet,
     assignable (gotypes.Basic "string") (gotypes.Basic "string") = true ->
     assignable slice Examples.Baz = true ->
     isSet "LogfMiddleware" = false ->
     GoAst.callMethod Examples.Logf assignable isSet body =
     Some ([(GoAst.VMethod "Logf",
             [GoAst.VArg 0; GoAst.VSlice [GoAst.VArg 1]])], None)) /\
  (forall assignable isSet,
     isSet "LogfMiddleware" = false ->
     GoAst.callMethod Examples.Logf assignable isSet body <>
     Some ([(GoAst.VMethod "Logf", [GoAst.VArg 0; GoAst.VArg 1])], None)).
Proof.
  cbv zeta.
  assert (Hrun : forall assignable isSet,
    isSet "LogfMiddleware" = false ->
    GoAst.callMethod Examples.Logf assignable isSet
      (GoAst.bodyOf Examples.Logf) =
    if assignable (gotypes.Basic "string") (gotypes.Basic "string") &&
       (assignable (gotypes.Slice Examples.Baz) Examples.Baz && true)
    then Some ([(GoAst.VMethod "Logf",
                 [GoAst.VArg 0; GoAst.VSlice [GoAst.VArg 1]])], None)
    else None).
  { intros assignable isSet Hunset.
    rewrite (callMethod_bodyOf Examples.Logf assignable isSet).
    cbv zeta. cbn. change ("Logf" +:+ "Middleware") with "LogfMiddleware".
    by rewrite Hunset. }
  split; [vm_compute; reflexivity|].
  split; [vm_compute; reflexivity|].
  split; [vm_compute; reflexivity|].
  split; [|split].
  - intros assignable isSet Hno.
    rewrite (callMethod_bodyOf Examples.Logf assignable isSet).
    cbv zeta. cbn. rewrite Hno. by rewrite andb_false_r.
  - intros assignable isSet Hs Hyes Hunset.
    by rewrite (Hrun _ _ Hunset), Hs, Hyes.
  - intros assignable isSet Hunset. rewrite (Hrun _ _ Hunset).
    destruct (_ && _); discriminate.
Qed.

(** ** Parameter names *)

(** The tuple loop of the type writer writes the variables as they are
    declared. *)
Lemma tupleVars_declared (render : gotypes.type -> string) (variadic : bool)
  (vs : list (string * gotypes.type)) :
  gotypes.tupleVarsWith render variadic true vs =
  Spec.declaredParams render variadic vs.
Proof.
  unfold Spec.declaredParams.
  destruct vs as [|v vs]; [reflexivity|].
  revert v. induction vs as [|w ws IH]; intros [n t].
  - cbn [gotypes.tupleVarsWith Spec.declaredList gostrings.Join].
    unfold Spec.declaredVariadic, Spec.declaredVar. cbn [fst snd].
    destruct variadic; [destruct t|];
      by rewrite ?sapp_nil_l, ?sapp_assoc, ?sapp_nil_r.
  - change (Spec.declaredList render variadic ((n, t) :: w :: ws))
      with (Spec.declaredVar render (n, t) ::
            Spec.declaredList render variadic (w :: ws)).
    assert (Hne : exists d ds,
              Spec.declaredList render variadic (w :: ws) = d :: ds).
    { destruct ws; cbn; eauto. }
    destruct Hne as (d & ds & Hd). rewrite Hd.
    change (gostrings.Join (Spec.declaredVar render (n, t) :: d :: ds) ", ")
      with (Spec.declaredVar render (n, t) +:+ ", " +:+
            gostrings.Join (d :: ds) ", ").
    rewrite <- Hd, <- IH. destruct w as [n' t'].
    cbn [gotypes.tupleVarsWith]. unfold Spec.declaredVar. cbn [fst snd].
    by rewrite ?sapp_nil_l, ?sapp_assoc.
Qed.

Lemma declaredList_fixed (render : gotypes.type -> string)
  (vs : list (string * gotypes.type)) :
  Spec.declaredList render false vs = List.map (Spec.declaredVar render) vs.
Proof.
  induction vs as [|v [|w ws] IH]; try reflexivity.
  change (Spec.declaredList render false (v :: w :: ws))
    with (Spec.declaredVar render v :: Spec.declaredList render false (w :: ws)).
  by rewrite IH.
Qed.

(** A signature is written as it is declared. *)
Lemma signature_declared (render : gotypes.type -> string)
  (sig : gotypes.Signature) :
  gotypes.signatureWith render sig =
  "(" +:+
  Spec.declaredParams render (gotypes.Variadic sig) (gotypes.Params sig) +:+
  ")" +:+ Spec.declaredResults render (gotypes.Results sig).
Proof.
  unfold gotypes.signatureWith, Spec.declaredResults.
  rewrite !tupleVars_declared. unfold Spec.declaredParams.
  rewrite declaredList_fixed.
  destruct (gotypes.Results sig) as [|[n r] [|r2 rs]];
    rewrite ?sapp_assoc, ?sapp_nil_r; reflexivity.
Qed.

Lemma handlerFuncTypes_step (g : Generator) (fn : gotypes.Func) :
  handlerFuncTypes (generateInterfaceMethod g fn) =
  handlerFuncTypes g +:+ Spec.handlerAlias (rendered g) fn.
Proof.
  unfold generateInterfaceMethod, generateMiddlewareMethod, Spec.handlerAlias,
    gotypes.WriteSignature, gotypes.signature.
  cbn [handlerFuncTypes withInterfaceMethods withMiddlewareStruct
       withHandlerFuncTypes].
  rewrite signature_declared. unfold rendered, gotypes.TypeString.
  by rewrite sapp_nil_l, !sapp_assoc.
Qed.

Lemma interfaceMethods_step (g : Generator) (fn : gotypes.Func) :
  interfaceMethods (generateInterfaceMethod g fn) =
  interfaceMethods g +:+
  Spec.methodImpl (targetFirstLetter g) (structName g) (rendered g) fn.
Proof.
  unfold generateInterfaceMethod. by rewrite generateMiddlewareMethod_impl.
Qed.

(** C6, as stated, fails: the two declarations [Bar(Baz) Quz]
    and [Bar(b Baz) Quz] differ only in the name of the parameter, yet
    their handler-type aliases differ, because the alias of the second one
    reads [func(b Baz) Quz]: the declared name is kept, and no [a0] is
    written. *)
Lemma handler_alias_keeps_declared_names :
  ~ (forall (g : Generator) (f1 f2 : gotypes.Func),
       Spec.sameUpToParamNames f1 f2 ->
       handlerFuncTypes (generateInterfaceMethod g f1) =
       handlerFuncTypes (generateInterfaceMethod g f2)) /\
  handlerFuncTypes
    (generateInterfaceMethod (Examples.genReady "Foo" "f" Examples.Foo)
       Examples.BarNamed) =
  "type BarHandler func(b Baz) Quz" +:+ nl.
Proof.
  split; [|vm_compute; reflexivity].
  intros H.
  specialize (H (Examples.genReady "Foo" "f" Examples.Foo)
                Examples.Bar Examples.BarNamed).
  assert (Hs : Spec.sameUpToParamNames Examples.Bar Examples.BarNamed)
    by (repeat split).
  specialize (H Hs). vm_compute in H. discriminate H.
Qed.

(** C6, amended: in the method implementations the parameters are named by
    position, [a0], [a1], ..., each followed by its rendered type, and the
    arguments passed on are the same names in the same order; the names
    the source interface declares do not reach that text, so two methods
    that differ only in those names get the same implementation.  The
    handler-type alias is the signature as [types.WriteSignature] writes
    it: every parameter stands there as the interface declares it, under
    its name when it has one and as its bare type when it has none, the
    last parameter of a variadic method with three dots before its
    element type. *)
Theorem parameter_names (g : Generator) (f1 f2 : gotypes.Func) :
  Spec.sameUpToParamNames f1 f2 ->
  let sig := gotypes.FuncType f1 in
  let types := List.map snd (gotypes.Params sig) in
  let params := Spec.syntheticParams (List.map (rendered g) types) in
  let args := Spec.syntheticArgs (List.length types) in
  let result :=
    match gotypes.Results sig with
    | [] => None
    | rs => Some (Spec.resultType (List.map (rendered g) (List.map snd rs)))
    end in
  interfaceMethods (generateMiddlewareMethod g f1) =
    interfaceMethods (generateMiddlewareMethod g f2) /\
  interfaceMethods (generateMiddlewareMethod g f1) =
    interfaceMethods g +:+
    Spec.methodText (targetFirstLetter g) (structName g)
      (gotypes.FuncName f1) params result args /\
  handlerFuncTypes (generateInterfaceMethod g f1) =
    handlerFuncTypes g +:+
    "type " +:+ gotypes.FuncName f1 +:+ "Handler func(" +:+
    gostrings.Join
      (Spec.declaredList (rendered g) (gotypes.Variadic sig)
         (gotypes.Params sig)) ", " +:+
    ")" +:+ Spec.declaredResults (rendered g) (gotypes.Results sig) +:+ nl /\
  (forall i v,
     gotypes.Params sig !! i = Some v ->
     (S i < List.length (gotypes.Params sig))%nat \/
     gotypes.Variadic sig = false ->
     Spec.declaredList (rendered g) (gotypes.Variadic sig)
       (gotypes.Params sig) !! i =
     Some ((if String.eqb (fst v) "" then "" else fst v +:+ " ") +:+
           rendered g (snd v))) /\
  (forall i n e,
     gotypes.Variadic sig = true ->
     gotypes.Params sig !! i = Some (n, gotypes.Slice e) ->
     S i = List.length (gotypes.Params sig) ->
     Spec.declaredList (rendered g) true (gotypes.Params sig) !! i =
     Some ((if String.eqb n "" then "" else n +:+ " ") +:+
           "..." +:+ rendered g e)).
Proof.
  intros (Hname & Hparams & Hvar & Hres) sig types params args result.
  assert (Htext : forall f,
    interfaceMethods (generateMiddlewareMethod g f) =
    interfaceMethods g +:+
    Spec.methodText (targetFirstLetter g) (structName g) (gotypes.FuncName f)
      (Spec.syntheticParams
         (List.map (rendered g)
            (List.map snd (gotypes.Params (gotypes.FuncType f)))))
      match gotypes.Results (gotypes.FuncType f) with
      | [] => None
      | rs => Some (Spec.resultType
                      (List.map (rendered g) (List.map snd rs)))
      end
      (Spec.syntheticArgs
         (List.length (List.map snd (gotypes.Params (gotypes.FuncType f)))))).
  { intros f. rewrite generateMiddlewareMethod_impl. unfold Spec.methodImpl.
    rewrite !List.map_map, length_map.
    destruct (gotypes.Results (gotypes.FuncType f)) as [|r rs];
      [reflexivity|].
    by rewrite List.map_map. }
  assert (Hlist : forall (variadic : bool) (vs : list (string * gotypes.type))
                         (i : nat) (v : string * gotypes.type),
    vs !! i = Some v ->
    Spec.declaredList (rendered g) variadic vs !! i =
    Some (if variadic && (S i =? List.length vs)%nat
          then Spec.declaredVariadic (rendered g) v
          else Spec.declaredVar (rendered g) v)).
  { intros variadic. induction vs as [|v0 [|w ws] IH]; intros i v Hi.
    - discriminate.
    - destruct i as [|i]; [|discriminate]. injection Hi as <-.
      cbn. by destruct variadic.
    - change (Spec.declaredList (rendered g) variadic (v0 :: w :: ws))
        with (Spec.declaredVar (rendered g) v0 ::
              Spec.declaredList (rendered g) variadic (w :: ws)).
      destruct i as [|i].
      + injection Hi as <-. cbn. by rewrite andb_false_r.
      + cbn [lookup list_lookup] in Hi |- *.
        exact (IH i v Hi). }
  split; [|split; [|split; [|split]]].
  - by rewrite (Htext f1), (Htext f2), Hname, Hparams, Hres.
  - by rewrite (Htext f1).
  - by rewrite handlerFuncTypes_step.
  - intros i v Hi Hplain. rewrite (Hlist _ _ i v Hi).
    destruct Hplain as [Hlt| ->]; [|reflexivity].
    replace (S i =? List.length (gotypes.Params sig))%nat with false
      by (symmetry; apply Nat.eqb_neq; lia).
    by rewrite andb_false_r.
  - intros i n e Hv Hi Hlast. rewrite (Hlist _ _ i _ Hi), Hlast.
    by rewrite Nat.eqb_refl.
Qed.

Lemma parameter_names_witness :
  Spec.sameUpToParamNames Examples.BarNamed Examples.Bar /\
  interfaceMethods
    (generateMiddlewareMethod (Examples.genReady "Foo" "f" Examples.Foo)
       Examples.BarNamed) =
  interfaceMethods
    (generateMiddlewareMethod (Examples.genReady "Foo" "f" Examples.Foo)
       Examples.Bar).
Proof.
  assert (Hs : Spec.sameUpToParamNames Examples.BarNamed Examples.Bar)
    by (repeat split).
  split; [exact Hs|].
  exact (proj1 (parameter_names
                  (Examples.genReady "Foo" "f" Examples.Foo)
                  Examples.BarNamed Examples.Bar Hs)).
Defined.

(** ** Qualification of type names *)

(** Induction over types, with the hypothesis available for every type
    argument of a named type, every variable of a signature, every field
    of a struct, every term of a union and every method and embedded type
    of an interface. *)
Lemma type_nested_ind (P : gotypes.type -> Prop) :
  (forall n, P (gotypes.Basic n)) ->
  (forall pkg n targs, Forall P targs -> P (gotypes.Named pkg n targs)) ->
  (forall e, P e -> P (gotypes.Pointer e)) ->
  (forall e, P e -> P (gotypes.Slice e)) ->
  (forall n e, P e -> P (gotypes.Array n e)) ->
  (forall k e, P k -> P e -> P (gotypes.Map k e)) ->
  (forall d e, P e -> P (gotypes.Chan d e)) ->
  (forall sig, signatureAll P sig -> P (gotypes.Func_ sig)) ->
  (forall fields,
     Forall (fun f => P (gotypes.FieldType f)) fields ->
     P (gotypes.Struct fields)) ->
  (forall terms,
     Forall (fun t => P (snd t)) terms -> P (gotypes.Union terms)) ->
  (forall methods embeddeds,
     Forall (fun m => signatureAll P (snd m)) methods ->
     Forall P embeddeds ->
     P (gotypes.InterfaceT methods embeddeds)) ->
  forall t, P t.
Proof.
  intros HBasic HNamed HPointer HSlice HArray HMap HChan HFunc HStruct
    HUnion HInterface.
  fix IH 1.
  assert (Hvars : forall vs : list (string * gotypes.type),
            Forall (fun v => P (snd v)) vs).
  { induction vs as [|[n t] vs IHvs]; constructor; [apply IH | exact IHvs]. }
  assert (Hsig : forall sig : gotypes.Signature, signatureAll P sig).
  { intros [ps v rs]. split; apply Hvars. }
  intros [n|pkg n targs|e|e|n e|k e|d e|sig|fields|terms|methods embeddeds].
  - apply HBasic.
  - apply HNamed. induction targs as [|t ts IHts]; constructor;
      [apply IH | exact IHts].
  - apply HPointer, IH.
  - apply HSlice, IH.
  - apply HArray, IH.
  - apply HMap; apply IH.
  - apply HChan, IH.
  - apply HFunc, Hsig.
  - apply HStruct. induction fields as [|[n t b] fs IHfs]; constructor;
      [apply IH | exact IHfs].
  - apply HUnion. induction terms as [|[b t] ts IHts]; constructor;
      [apply IH | exact IHts].
  - apply HInterface.
    + induction methods as [|[n sig] ms IHms]; constructor;
        [apply Hsig | exact IHms].
    + induction embeddeds as [|t ts IHts]; constructor;
        [apply IH | exact IHts].
Qed.

Lemma listWith_ext {A : Type} (sep : string) (f f' : A -> string)
  (xs : list A) :
  Forall (fun x => f x = f' x) xs ->
  forall first,
    gotypes.listWith sep f first xs = gotypes.listWith sep f' first xs.
Proof.
  induction 1 as [|x xs Hx _ IH]; intros first; [reflexivity|].
  cbn [gotypes.listWith]. by rewrite Hx, IH.
Qed.

Lemma tupleVars_ext (f f' : gotypes.type -> string) (variadic : bool)
  (vs : list (string * gotypes.type)) :
  Forall (fun v => agreeOn f f' (snd v)) vs ->
  forall first,
    gotypes.tupleVarsWith f variadic first vs =
    gotypes.tupleVarsWith f' variadic first vs.
Proof.
  induction 1 as [|[n t] vs [Ht Hslice] _ IH]; intros first; [reflexivity|].
  cbn [gotypes.tupleVarsWith]. cbn [snd] in Ht, Hslice.
  rewrite IH, Ht.
  destruct vs, variadic; try reflexivity.
  destruct t; try reflexivity. by rewrite (Hslice _ eq_refl).
Qed.

Lemma signatureWith_ext (f f' : gotypes.type -> string)
  (sig : gotypes.Signature) :
  signatureAll (agreeOn f f') sig ->
  gotypes.signatureWith f sig = gotypes.signatureWith f' sig.
Proof.
  intros [Hps Hrs]. unfold gotypes.signatureWith.
  rewrite (tupleVars_ext f f' _ _ Hps), !(tupleVars_ext f f' _ _ Hrs).
  destruct (gotypes.Results sig) as [|[n r] [|r2 rs]]; try reflexivity.
  destruct (String.eqb n ""); [|reflexivity].
  inversion Hrs as [|? ? [Hr _] _]; subst. cbn [snd] in Hr. by rewrite Hr.
Qed.

Lemma packagePrefix_quantifier (g : Generator) (pkg : option gotypes.Package)
  (n : string) :
  match pkg with
  | Some q => String.eqb (gotypes.Name q) "" = false
  | None => True
  end ->
  gotypes.packagePrefix pkg (Some (typeStringQuantifier g)) +:+ n =
  Spec.qualifiedName (gopackages.PkgPath (p g)) pkg n.
Proof.
  destruct pkg as [q|]; [|reflexivity]. intros Hname.
  unfold gotypes.packagePrefix, Spec.qualifiedName, typeStringQuantifier.
  destruct (String.eqb (gotypes.Path q) (gopackages.PkgPath (p g))).
  - reflexivity.
  - rewrite Hname. by rewrite sapp_assoc.
Qed.

(** Writers that agree on the variables of a signature whose packages
    have names. *)
Lemma agree_vars (f f' : gotypes.type -> string)
  (vs : list (string * gotypes.type)) :
  (forall e, f (gotypes.Slice e) = "[]" +:+ f e) ->
  (forall e, f' (gotypes.Slice e) = "[]" +:+ f' e) ->
  Forall (fun v => Spec.packagesNamed (snd v) = true -> f (snd v) = f' (snd v))
    vs ->
  forallb (fun v => Spec.packagesNamed (snd v)) vs = true ->
  Forall (fun v => agreeOn f f' (snd v)) vs.
Proof.
  intros Hf Hf' HP Hnamed. rewrite forallb_forall in Hnamed.
  rewrite Forall_forall in HP |- *. intros v Hv.
  assert (Hin : In v vs) by by apply list_elem_of_In.
  pose proof (HP v Hv (Hnamed v Hin)) as Heq. split; [exact Heq|].
  intros e He. rewrite He, Hf, Hf' in Heq. by apply String.app_inj in Heq.
Qed.

Lemma agree_signature (f f' : gotypes.type -> string)
  (sig : gotypes.Signature) :
  (forall e, f (gotypes.Slice e) = "[]" +:+ f e) ->
  (forall e, f' (gotypes.Slice e) = "[]" +:+ f' e) ->
  signatureAll (fun t => Spec.packagesNamed t = true -> f t = f' t) sig ->
  Spec.signatureNamed Spec.packagesNamed sig = true ->
  signatureAll (agreeOn f f') sig.
Proof.
  intros Hf Hf' [HPp HPr] Hnamed. unfold Spec.signatureNamed in Hnamed.
  apply andb_true_iff in Hnamed as [Hps Hrs].
  split; by apply agree_vars.
Qed.

(** Under the generator's qualifier a type is rendered as the
    specification qualifies it. *)
Lemma TypeString_qualified (g : Generator) (t : gotypes.type) :
  Spec.packagesNamed t = true ->
  gotypes.TypeString t (Some (typeStringQuantifier g)) =
  Spec.qualified (gopackages.PkgPath (p g)) t.
Proof.
  unfold gotypes.TypeString.
  set (f := gotypes.typ (Some (typeStringQuantifier g))).
  set (f' := Spec.qualified (gopackages.PkgPath (p g))).
  assert (Hf : forall e, f (gotypes.Slice e) = "[]" +:+ f e) by reflexivity.
  assert (Hf' : forall e, f' (gotypes.Slice e) = "[]" +:+ f' e)
    by reflexivity.
  induction t as [n|pkg n targs IH|e IH|e IH|n e IH|k e IHk IHe|d e IH
                 |sig IH|fields IH|terms IH|methods embeddeds IHm IHe]
    using type_nested_ind; intros Hn; subst f f'.
  - reflexivity.
  - cbn [Spec.packagesNamed] in Hn. apply andb_true_iff in Hn as [Hpkg Hts].
    cbn [gotypes.typ Spec.qualified].
    rewrite <- packagePrefix_quantifier, !sapp_assoc.
    + f_equal. f_equal. destruct targs as [|t ts]; [reflexivity|].
      f_equal. f_equal. apply listWith_ext.
      rewrite forallb_forall in Hts. rewrite Forall_forall in IH |- *.
      intros x Hx. apply IH; [exact Hx|]. apply Hts.
      by apply list_elem_of_In.
    + destruct pkg as [q|]; [|exact I]. by apply negb_true_iff.
  - cbn [gotypes.typ Spec.qualified]. by rewrite IH.
  - cbn [gotypes.typ Spec.qualified]. by rewrite IH.
  - cbn [gotypes.typ Spec.qualified]. by rewrite IH.
  - cbn [Spec.packagesNamed] in Hn. apply andb_true_iff in Hn as [Hk He].
    cbn [gotypes.typ Spec.qualified]. by rewrite IHk, IHe.
  - cbn [Spec.packagesNamed] in Hn. specialize (IH Hn).
    cbn [gotypes.typ Spec.qualified]. by rewrite IH.
  - cbn [Spec.packagesNamed] in Hn. cbn [gotypes.typ Spec.qualified].
    f_equal. apply signatureWith_ext. by apply agree_signature.
  - cbn [Spec.packagesNamed] in Hn. cbn [gotypes.typ Spec.qualified].
    f_equal. f_equal. apply listWith_ext.
    rewrite forallb_forall in Hn. rewrite Forall_forall in IH |- *.
    intros fld Hfld. unfold gotypes.fieldWith. f_equal.
    apply IH; [exact Hfld|]. apply Hn. by apply list_elem_of_In.
  - cbn [Spec.packagesNamed] in Hn. cbn [gotypes.typ Spec.qualified].
    apply listWith_ext.
    rewrite forallb_forall in Hn. rewrite Forall_forall in IH |- *.
    intros tm Htm. unfold gotypes.termWith. f_equal.
    apply IH; [exact Htm|]. apply Hn. by apply list_elem_of_In.
  - cbn [Spec.packagesNamed] in Hn. apply andb_true_iff in Hn as [Hms Hes].
    cbn [gotypes.typ Spec.qualified]. f_equal. f_equal; [|f_equal].
    + apply listWith_ext.
      rewrite forallb_forall in Hms. rewrite Forall_forall in IHm |- *.
      intros m Hm. unfold gotypes.methodWith. f_equal.
      apply signatureWith_ext. apply agree_signature; try assumption.
      * by apply IHm.
      * apply Hms. by apply list_elem_of_In.
    + apply listWith_ext.
      rewrite forallb_forall in Hes. rewrite Forall_forall in IHe |- *.
      intros x Hx. apply IHe; [exact Hx|]. apply Hes.
      by apply list_elem_of_In.
Qed.

Lemma handlerAlias_signature (render : gotypes.type -> string)
  (fn : gotypes.Func) :
  Spec.handlerAlias render fn =
  "type " +:+ gotypes.FuncName fn +:+ "Handler func" +:+
  gotypes.signatureWith render (gotypes.FuncType fn) +:+ nl.
Proof.
  unfold Spec.handlerAlias. rewrite signature_declared.
  by rewrite ?sapp_assoc.
Qed.

(** C5: qualification.  What one method contributes to the generated text
    has every type qualified as the specification says: in the method
    implementation the parameter types and the result types, in the
    handler-type alias the whole signature.  A named type of the invoking
    package (same import path) stands unqualified, a named type of another
    package is prefixed with that package's name and a dot, a type of the
    universe stands as it is, and pointers, slices, arrays, maps,
    channels, function types, structs and type arguments render their
    constituents by the same rule.  The packages are taken to have names,
    as every Go package has. *)
Theorem qualification (g : Generator) (fn : gotypes.Func) :
  Spec.packagesNamed (gotypes.Func_ (gotypes.FuncType fn)) = true ->
  let own := gopackages.PkgPath (p g) in
  let q := Spec.qualified own in
  let g' := generateInterfaceMethod g fn in
  interfaceMethods g' =
    interfaceMethods g +:+
    Spec.methodImpl (targetFirstLetter g) (structName g) q fn /\
  handlerFuncTypes g' = handlerFuncTypes g +:+ Spec.handlerAlias q fn /\
  (forall t : gotypes.type,
     Spec.packagesNamed t = true ->
     gotypes.TypeString t (Some (typeStringQuantifier g)) = q t) /\
  (forall (pkg : gotypes.Package) (name : string),
     q (gotypes.Named (Some pkg) name []) =
     if String.eqb (gotypes.Path pkg) own then name
     else gotypes.Name pkg +:+ "." +:+ name) /\
  (forall name : string, q (gotypes.Named None name []) = name) /\
  (forall e, q (gotypes.Pointer e) = "*" +:+ q e) /\
  (forall e, q (gotypes.Slice e) = "[]" +:+ q e) /\
  (forall n e, q (gotypes.Array n e) = "[" +:+ itoa n +:+ "]" +:+ q e) /\
  (forall k e, q (gotypes.Map k e) = "map[" +:+ q k +:+ "]" +:+ q e) /\
  (forall pkg name a b,
     q (gotypes.Named pkg name [a; b]) =
     q (gotypes.Named pkg name []) +:+ "[" +:+ q a +:+ ", " +:+ q b +:+ "]").
Proof.
  intros Hnamed own q g'. cbn [Spec.packagesNamed] in Hnamed.
  assert (Hvars : forall vs : list (string * gotypes.type),
    forallb (fun v => Spec.packagesNamed (snd v)) vs = true ->
    List.map (fun v => rendered g (snd v)) vs =
    List.map (fun v => q (snd v)) vs).
  { intros vs Hvs. rewrite forallb_forall in Hvs.
    apply map_ext_in. intros v Hv. apply TypeString_qualified, Hvs, Hv. }
  pose proof Hnamed as Hboth. unfold Spec.signatureNamed in Hboth.
  apply andb_true_iff in Hboth as [Hps Hrs].
  split; [|split; [|split]].
  - subst g'. rewrite interfaceMethods_step. unfold Spec.methodImpl.
    rewrite (Hvars _ Hps).
    destruct (gotypes.Results (gotypes.FuncType fn)) as [|r rs] eqn:Hres;
      [reflexivity|].
    by rewrite (Hvars _ Hrs).
  - subst g'. rewrite handlerFuncTypes_step, !handlerAlias_signature.
    rewrite (signatureWith_ext (rendered g) q); [reflexivity|].
    apply agree_signature; try reflexivity; [|exact Hnamed].
    split; rewrite Forall_forall; intros v _ Hv;
      by apply TypeString_qualified.
  - intros t Ht. by apply TypeString_qualified.
  - subst q. repeat split; try reflexivity.
    + intros pkg name. cbn [Spec.qualified Spec.qualifiedName].
      by rewrite sapp_nil_r.
    + intros name. cbn [Spec.qualified Spec.qualifiedName].
      by rewrite sapp_nil_r.
    + intros pkg name a b. cbn [Spec.qualified gotypes.listWith].
      by rewrite ?sapp_nil_r, ?sapp_nil_l, ?sapp_assoc.
Qed.

Lemma qualification_witness :
  interfaceMethods
    (generateInterfaceMethod (Examples.genReady "Copier" "c" Examples.Copier)
       Examples.Copy) =
  Spec.methodImpl "c" "CopierMiddleware" (Spec.qualified "example.com/app")
    Examples.Copy /\
  handlerFuncTypes
    (generateInterfaceMethod (Examples.genReady "Copier" "c" Examples.Copier)
       Examples.Copy) =
  Spec.handlerAlias (Spec.qualified "example.com/app") Examples.Copy.
Proof.
  destruct (qualification (Examples.genReady "Copier" "c" Examples.Copier)
              Examples.Copy eq_refl) as (Himpl & Halias & _).
  split; [exact Himpl | exact Halias].
Defined.

Example qualification_Copy :
  Spec.handlerAlias (Spec.qualified "example.com/app") Examples.Copy
  = "type CopyHandler func(dst io.Writer, src *http.Request, " +:+
    "opts map[string][]Baz) (n int, err error)" +:+ nl /\
  Spec.methodImpl "c" "CopierMiddleware" (Spec.qualified "example.com/app")
    Examples.Copy
  = ("func (c *CopierMiddleware) Copy(a0 io.Writer, a1 *http.Request, " +:+
     "a2 map[string][]Baz) (int, error) {" +:+ nl) +:+
    (tab +:+ "fun := c.wrapped.Copy" +:+ nl) +:+
    (tab +:+ "if c.CopyMiddleware != nil {" +:+ nl) +:+
    (tab +:+ tab +:+ "fun = c.CopyMiddleware(fun)" +:+ nl) +:+
    (tab +:+ "}" +:+ nl) +:+
    (tab +:+ "return fun(a0, a1, a2)" +:+ nl) +:+
    ("}" +:+ nl) +:+
    nl.
Proof. split; vm_compute; reflexivity. Qed.

Example qualification_requests :
  Spec.qualified "example.com/app" Examples.requests
  = "map[string][]*http.Request[Baz, io.Reader]".
Proof. vm_compute. reflexivity. Qed.

(** ** The loop over the methods *)

Lemma typeStringQuantifier_p (g g' : Generator) :
  p g = p g' -> typeStringQuantifier g = typeStringQuantifier g'.
Proof. unfold typeStringQuantifier. by intros ->. Qed.

Lemma rendered_p (g g' : Generator) : p g = p g' -> rendered g = rendered g'.
Proof.
  intros Hp. unfold rendered. by rewrite (typeStringQuantifier_p g g' Hp).
Qed.

Lemma generateInterfaceMethod_fields (g : Generator) (fn : gotypes.Func) :
  let g' := generateInterfaceMethod g fn in
  p g' = p g /\ target g' = target g /\ targetName g' = targetName g /\
  targetFirstLetter g' = targetFirstLetter g /\
  structName g' = structName g /\ wrapFunction g' = wrapFunction g /\
  handlerFuncTypes g' =
    handlerFuncTypes g +:+ Spec.handlerAlias (rendered g) fn /\
  middlewareStruct g' = middlewareStruct g +:+ Spec.overrideField fn /\
  interfaceMethods g' =
    interfaceMethods g +:+
    Spec.methodImpl (targetFirstLetter g) (structName g) (rendered g) fn.
Proof.
  cbv zeta. repeat split; try reflexivity.
  - apply handlerFuncTypes_step.
  - unfold generateInterfaceMethod, generateMiddlewareMethod,
      Spec.overrideField.
    cbn [middlewareStruct withInterfaceMethods withMiddlewareStruct
         withHandlerFuncTypes].
    by rewrite !sapp_assoc.
  - apply interfaceMethods_step.
Qed.

(** The indexed loop visits the methods in their order, each once. *)
Lemma methodsLoop_fold (t : gotypes.Interface) (ms : list gotypes.Func) :
  forall (pre : list gotypes.Func) (g : Generator),
    gotypes.Methods t = (pre ++ ms)%list ->
    methodsLoop t (List.length ms) (List.length pre) g =
    fold_left generateInterfaceMethod ms g.
Proof.
  induction ms as [|fn ms IH]; intros pre g Hms; [reflexivity|].
  cbn [List.length methodsLoop fold_left]. unfold gotypes.Method.
  rewrite Hms, lookup_app_r, Nat.sub_diag by lia. cbn [lookup list_lookup].
  specialize (IH (pre ++ [fn])%list (generateInterfaceMethod g fn)).
  rewrite length_app, Nat.add_1_r in IH. apply IH.
  by rewrite <- app_assoc.
Qed.

Lemma generateInterfaceMethods_fold (g : Generator) (t : gotypes.Interface) :
  generateInterfaceMethods g t =
  fold_left generateInterfaceMethod (gotypes.Methods t) g.
Proof.
  unfold generateInterfaceMethods, gotypes.NumMethods.
  exact (methodsLoop_fold t (gotypes.Methods t) [] g eq_refl).
Qed.

Lemma generateInterfaceMethods_fields (t : gotypes.Interface) :
  forall g : Generator,
    let g' := generateInterfaceMethods g t in
    let ms := gotypes.Methods t in
    p g' = p g /\ target g' = target g /\ targetName g' = targetName g /\
    targetFirstLetter g' = targetFirstLetter g /\
    structName g' = structName g /\ wrapFunction g' = wrapFunction g /\
    handlerFuncTypes g' =
      handlerFuncTypes g +:+
      String.concat "" (List.map (Spec.handlerAlias (rendered g)) ms) /\
    middlewareStruct g' =
      middlewareStruct g +:+
      String.concat "" (List.map Spec.overrideField ms) /\
    interfaceMethods g' =
      interfaceMethods g +:+
      String.concat ""
        (List.map
           (Spec.methodImpl (targetFirstLetter g) (structName g) (rendered g))
           ms).
Proof.
  intros g. rewrite generateInterfaceMethods_fold. revert g. cbv zeta.
  induction (gotypes.Methods t) as [|fn ms IH]; intros g.
  - cbn [fold_left List.map String.concat]. by rewrite !sapp_nil_r.
  - cbn [fold_left List.map]. rewrite !concat_empty_cons.
    destruct (generateInterfaceMethod_fields g fn)
      as (Hp & Ht & Hn & Hr & Hs & Hw & Hh & Hm & Hi).
    destruct (IH (generateInterfaceMethod g fn))
      as (Hp' & Ht' & Hn' & Hr' & Hs' & Hw' & Hh' & Hm' & Hi').
    repeat split; try congruence.
    + by rewrite Hh', Hh, (rendered_p _ g Hp), sapp_assoc.
    + by rewrite Hm', Hm, sapp_assoc.
    + by rewrite Hi', Hi, Hr, Hs, (rendered_p _ g Hp), sapp_assoc.
Qed.

Lemma wrapFunctionFormat_constructor (name : string) :
  wrapFunctionFormat name (name +:+ "Middleware") = Spec.constructor name.
Proof.
  unfold wrapFunctionFormat, Spec.constructor. by rewrite ?sapp_assoc.
Qed.

(** What [generateWrapperCode] leaves in the generator. *)
Lemma generateWrapperCode_eq (env : Env) (g g' : Generator) :
  generateWrapperCode env g = Some g' ->
  let ms := gotypes.Methods (target g) in
  exists first,
    gostrings.slice01 (targetName g) = Some first /\
    p g' = p g /\ target g' = target g /\ targetName g' = targetName g /\
    targetFirstLetter g' = gostrings.ToLower (unicode_ToLower env) first /\
    structName g' = targetName g +:+ "Middleware" /\
    wrapFunction g' = Spec.constructor (targetName g) /\
    handlerFuncTypes g' =
      String.concat "" (List.map (Spec.handlerAlias (rendered g')) ms) /\
    middlewareStruct g' =
      Spec.structHeader (targetName g) +:+
      String.concat "" (List.map Spec.overrideField ms) +:+ "}" +:+ nl /\
    interfaceMethods g' =
      String.concat ""
        (List.map
           (Spec.methodImpl (targetFirstLetter g') (structName g')
              (rendered g')) ms).
Proof.
  unfold generateWrapperCode.
  destruct (gostrings.slice01 (targetName g)) as [first|]; [|discriminate].
  intros [= <-]. cbv zeta. exists first.
  match goal with
  | |- context [generateInterfaceMethods ?g0 ?t] =>
      destruct (generateInterfaceMethods_fields t g0)
        as (Hp & Ht & Hn & Hr & Hs & Hw & Hh & Hm & Hi);
      set (g1 := generateInterfaceMethods g0 t) in *
  end.
  cbn [p target targetName targetFirstLetter structName wrapFunction
       handlerFuncTypes middlewareStruct interfaceMethods
       withMiddlewareStruct] in *.
  assert (Hrender : forall s,
            rendered (withMiddlewareStruct g1 s) = rendered g).
  { intros s. apply rendered_p. cbn [p withMiddlewareStruct]. exact Hp. }
  assert (Hrender0 : forall a b c d e f' h,
            rendered {| p := p g; target := a; targetName := b;
                        targetFirstLetter := c; structName := d;
                        wrapFunction := e; middlewareStruct := f';
                        handlerFuncTypes := h; interfaceMethods := h |}
            = rendered g).
  { intros. by apply rendered_p. }
  repeat split; try assumption.
  - rewrite Hw. apply wrapFunctionFormat_constructor.
  - by rewrite Hh, sapp_nil_l, Hrender, Hrender0.
  - rewrite Hm. unfold Spec.structHeader. by rewrite !sapp_assoc.
  - by rewrite Hi, sapp_nil_l, Hrender, Hrender0, Hr, Hs.
Qed.

Lemma lookup_map {A B} (f : A -> B) (l : list A) (i : nat) :
  List.map f l !! i = f <$> (l !! i).
Proof.
  revert i. induction l as [|x l IH]; intros [|i]; try reflexivity.
  cbn. apply IH.
Qed.

Lemma methodText_starts (g : Generator) (fn : gotypes.Func) :
  exists rest,
    middlewareMethodText g fn =
    "func (" +:+ targetFirstLetter g +:+ " *" +:+ structName g +:+ ") " +:+
    gotypes.FuncName fn +:+ "(" +:+ rest.
Proof.
  rewrite (middlewareMethodText_eq g fn). cbv zeta.
  destruct (gotypes.Results (gotypes.FuncType fn)).
  - unfold interfaceMethodFormatVoid. eexists. reflexivity.
  - unfold interfaceMethodFormatReturn. eexists. reflexivity.
Qed.

(** C2, as stated, fails: the interface [Shuffled] declares its methods in
    the order [Zed], [Alpha], [Mid], and the three sections generated for
    it have them in the order [Alpha], [Mid], [Zed], the one of its method
    set. *)
Lemma sections_not_in_declared_order :
  ~ (forall (env : Env) (name : string) (ms : list gotypes.Func)
            (g' : Generator),
       generateWrapperCode env (Examples.genFor name (gotypes.declaring ms))
         = Some g' ->
       handlerFuncTypes g' =
       String.concat "" (List.map (Spec.handlerAlias (rendered g')) ms)) /\
  Examples.Shuffled =
    gotypes.declaring [Examples.Zed; Examples.Alpha; Examples.Mid] /\
  List.map gotypes.FuncName (gotypes.Methods Examples.Shuffled) =
    ["Alpha"; "Mid"; "Zed"] /\
  generateWrapperCode (Examples.envFor "Shuffled")
    (Examples.genFor "Shuffled" Examples.Shuffled)
  = Some Examples.generatedShuffled /\
  handlerFuncTypes Examples.generatedShuffled =
    ("type AlphaHandler func()" +:+ nl) +:+
    ("type MidHandler func()" +:+ nl) +:+
    ("type ZedHandler func()" +:+ nl) /\
  middlewareStruct Examples.generatedShuffled =
    ("// ShuffledMiddleware implements Shuffled" +:+ nl) +:+
    ("type ShuffledMiddleware struct {" +:+ nl) +:+
    (tab +:+ "wrapped Shuffled" +:+ nl) +:+
    nl +:+
    (tab +:+ "AlphaMiddleware func(AlphaHandler) AlphaHandler" +:+ nl) +:+
    (tab +:+ "MidMiddleware func(MidHandler) MidHandler" +:+ nl) +:+
    (tab +:+ "ZedMiddleware func(ZedHandler) ZedHandler" +:+ nl) +:+
    ("}" +:+ nl) /\
  interfaceMethods Examples.generatedShuffled =
    Spec.methodText "s" "ShuffledMiddleware" "Alpha" "" None "" +:+
    Spec.methodText "s" "ShuffledMiddleware" "Mid" "" None "" +:+
    Spec.methodText "s" "ShuffledMiddleware" "Zed" "" None "".
Proof.
  assert (Hgen : generateWrapperCode (Examples.envFor "Shuffled")
                   (Examples.genFor "Shuffled" Examples.Shuffled)
                 = Some Examples.generatedShuffled)
    by (vm_compute; reflexivity).
  split; [|repeat split; vm_compute; reflexivity].
  intros H.
  specialize (H _ "Shuffled" [Examples.Zed; Examples.Alpha; Examples.Mid] _
                Hgen).
  vm_compute in H. discriminate H.
Qed.

(** C2, amended: one alias, one field and one method per method of the
    contract, in the order of its method set.  After generation for an
    interface whose method set is [Method(0)], ..., [Method(N-1)], the
    buffer of handler types is the concatenation of one alias per method,
    the struct buffer is its header, one override field per method and the
    closing brace, and the buffer of implementations is the concatenation
    of one implementation per method; each of the three lists has [N]
    elements, and its [i]-th element is the one written for [Method(i)],
    carrying that method's name.  The order is the one in which the type
    checker keeps the method set, whatever the order of declaration. *)
Theorem sections_follow_methods (env : Env) (g g' : Generator) :
  generateWrapperCode env g = Some g' ->
  let t := target g in
  let ms := gotypes.Methods t in
  let aliases := List.map (Spec.handlerAlias (rendered g')) ms in
  let fields := List.map Spec.overrideField ms in
  let bodies :=
    List.map
      (Spec.methodImpl (targetFirstLetter g') (structName g') (rendered g'))
      ms in
  handlerFuncTypes g' = String.concat "" aliases /\
  middlewareStruct g' =
    Spec.structHeader (targetName g) +:+ String.concat "" fields +:+
    "}" +:+ nl /\
  interfaceMethods g' = String.concat "" bodies /\
  structName g' = targetName g +:+ "Middleware" /\
  List.length aliases = gotypes.NumMethods t /\
  List.length fields = gotypes.NumMethods t /\
  List.length bodies = gotypes.NumMethods t /\
  forall (i : nat) (fn : gotypes.Func),
    gotypes.Method t i = Some fn ->
    let name := gotypes.FuncName fn in
    (exists rest,
       aliases !! i = Some ("type " +:+ name +:+ "Handler func(" +:+ rest)) /\
    fields !! i =
      Some (tab +:+ name +:+ "Middleware func(" +:+ name +:+ "Handler) " +:+
            name +:+ "Handler" +:+ nl) /\
    (exists rest,
       bodies !! i =
         Some ("func (" +:+ targetFirstLetter g' +:+ " *" +:+
               structName g' +:+ ") " +:+ name +:+ "(" +:+ rest)).
Proof.
  intros Hgen t ms aliases fields bodies.
  destruct (generateWrapperCode_eq env g g' Hgen)
    as (first & _ & _ & _ & _ & _ & Hs & _ & Hh & Hm & Hi).
  cbv zeta in Hh, Hm, Hi. fold t ms in Hh, Hm, Hi.
  split; [exact Hh|]. split; [exact Hm|]. split; [exact Hi|].
  split; [exact Hs|]. do 3 (split; [apply length_map|]).
  intros i fn Hfn name. unfold gotypes.Method in Hfn. fold ms in Hfn.
  subst aliases fields bodies. rewrite !lookup_map, Hfn.
  cbn [fmap option_fmap option_map].
  split; [|split]; [| reflexivity |].
  - unfold Spec.handlerAlias. fold name. eexists. reflexivity.
  - unfold Spec.methodImpl, Spec.methodText. fold name.
    rewrite ?sapp_assoc. eexists. reflexivity.
Qed.

Lemma sections_follow_methods_witness :
  generateWrapperCode (Examples.envFor "Server")
    (Examples.genFor "Server" Examples.Server)
  = Some Examples.generatedServer /\
  handlerFuncTypes Examples.generatedServer =
    String.concat ""
      (List.map (Spec.handlerAlias (rendered Examples.generatedServer))
         [Examples.Init; Examples.Request]).
Proof.
  assert (Hgen : generateWrapperCode (Examples.envFor "Server")
                   (Examples.genFor "Server" Examples.Server)
                 = Some Examples.generatedServer)
    by (vm_compute; reflexivity).
  split; [exact Hgen|].
  exact (proj1 (sections_follow_methods _ _ _ Hgen)).
Defined.

Example sections_of_Server :
  handlerFuncTypes Examples.generatedServer =
    ("type InitHandler func()" +:+ nl) +:+
    ("type RequestHandler func() Response" +:+ nl) /\
  middlewareStruct Examples.generatedServer =
    ("// ServerMiddleware implements Server" +:+ nl) +:+
    ("type ServerMiddleware struct {" +:+ nl) +:+
    (tab +:+ "wrapped Server" +:+ nl) +:+
    nl +:+
    (tab +:+ "InitMiddleware func(InitHandler) InitHandler" +:+ nl) +:+
    (tab +:+ "RequestMiddleware func(RequestHandler) RequestHandler" +:+ nl)
    +:+ ("}" +:+ nl).
Proof. split; vm_compute; reflexivity. Qed.

(** ** Resolution of the target *)

Lemma diagnostic_kind (name : string) (e1 e2 : Spec.ResolutionError) :
  Spec.sameKind e1 e2 = false ->
  Spec.diagnostic name e1 <> Spec.diagnostic name e2.
Proof.
  intros Hkind Heq.
  apply (f_equal (String.get 0)) in Heq.
  destruct e1, e2; try discriminate Hkind; discriminate Heq.
Qed.

(** [Empty()] holds of the interfaces that have no method and no
    restriction to a set of types. *)
Lemma Empty_iff (t : gotypes.Interface) :
  gotypes.Empty t = true <->
  gotypes.NumMethods t = 0%nat /\ gotypes.IsMethodSet t = true.
Proof.
  unfold gotypes.Empty. rewrite andb_true_iff, Nat.eqb_eq. tauto.
Qed.

(** [init] is the resolver with [Empty()] as its last test. *)
Lemma init_eq (env : Env) (g : Generator) (name : string) (w : World) :
  init env g name w =
    match Spec.TargetResolver gotypes.Empty (packages_Load env) name with
    | inl e =>
        (logged w [Load; Log (log_line (Spec.diagnostic name e))], Exit 1%Z)
    | inr (unit, iface) =>
        (logged w [Load],
         Done (withTarget (withP (withTargetName g name) unit) iface))
    end.
Proof.
  unfold init, Spec.TargetResolver, log_Fatalf, log_Printf, os_Exit, bind,
    emit, ret, logged.
  destruct (packages_Load env) as [err|[|u [|u' us]]]; cbn;
    rewrite <- ?app_assoc; try reflexivity.
  destruct (gopackages.Scope u !! name) as [obj|]; cbn;
    rewrite <- ?app_assoc; try reflexivity.
  destruct (gotypes.ObjUnderlying obj) as [iface|t]; cbn;
    rewrite <- ?app_assoc; try reflexivity.
  destruct (gotypes.Empty iface); cbn;
    rewrite <- ?app_assoc; reflexivity.
Qed.

(** The checks of the resolver, one by one and in their order. *)
Lemma TargetResolver_cases (isEmpty : gotypes.Interface -> bool)
  (load : string + list gopackages.Package) (name : string) :
  let R := Spec.TargetResolver isEmpty load name in
  (forall err, load = inl err -> R = inl (Spec.LoadFailure err)) /\
  (forall units, load = inr units -> List.length units <> 1%nat ->
     R = inl (Spec.AmbiguousUnit (List.length units))) /\
  (forall u, load = inr [u] -> gopackages.Scope u !! name = None ->
     R = inl Spec.NotFound) /\
  (forall u obj t, load = inr [u] ->
     gopackages.Scope u !! name = Some obj ->
     gotypes.ObjUnderlying obj = gotypes.UOther t ->
     R = inl Spec.NotAContract) /\
  (forall u obj i, load = inr [u] ->
     gopackages.Scope u !! name = Some obj ->
     gotypes.ObjUnderlying obj = gotypes.UInterface i ->
     isEmpty i = true ->
     R = inl Spec.EmptyContract) /\
  (forall u obj i, load = inr [u] ->
     gopackages.Scope u !! name = Some obj ->
     gotypes.ObjUnderlying obj = gotypes.UInterface i ->
     isEmpty i = false ->
     R = inr (u, i)).
Proof.
  cbv zeta. unfold Spec.TargetResolver.
  repeat split.
  - by intros err ->.
  - intros [|u [|u' us]] -> Hlen; try reflexivity. by cbn in Hlen.
  - by intros u -> ->.
  - by intros u obj t -> -> ->.
  - by intros u obj i -> -> -> ->.
  - by intros u obj i -> -> -> ->.
Qed.

Lemma TargetResolver_inr (isEmpty : gotypes.Interface -> bool)
  (load : string + list gopackages.Package)
  (name : string) (unit : gopackages.Package) (iface : gotypes.Interface) :
  Spec.TargetResolver isEmpty load name = inr (unit, iface) ->
  load = inr [unit] /\
  (exists obj, gopackages.Scope unit !! name = Some obj /\
               gotypes.ObjUnderlying obj = gotypes.UInterface iface) /\
  isEmpty iface = false.
Proof.
  unfold Spec.TargetResolver.
  destruct load as [err|[|u [|u' us]]]; try discriminate.
  destruct (gopackages.Scope u !! name) as [obj|] eqn:Hobj;
    try discriminate.
  destruct (gotypes.ObjUnderlying obj) as [i|t] eqn:Hshape;
    try discriminate.
  destruct (isEmpty i) eqn:Hempty; try discriminate.
  intros [= <- <-]. split; [reflexivity|]. split; [|exact Hempty].
  exists obj. by split.
Qed.

(** C8, as stated, fails: the interface [Text], a constraint
    [interface { ~int | ~string }], has no method, and [init] lets it
    through, because [Empty()] is false of it; the specification's
    resolver reports EmptyContract, and the run of the generator ends with
    status 0. *)
Lemma constraint_interface_resolves :
  ~ (forall (env : Env) (g : Generator) (name : string) (w : World)
            (u : gopackages.Package) (obj : gotypes.Object)
            (i : gotypes.Interface),
       packages_Load env = inr [u] ->
       gopackages.Scope u !! name = Some obj ->
       gotypes.ObjUnderlying obj = gotypes.UInterface i ->
       gotypes.NumMethods i = 0%nat ->
       init env g name w =
       (logged w
          [Load; Log (log_line (Spec.diagnostic name Spec.EmptyContract))],
        Exit 1%Z)) /\
  gotypes.NumMethods Examples.Text = 0%nat /\
  Spec.TargetResolver Spec.hasNoMethod
    (packages_Load (Examples.envFor "Text")) "Text"
  = inl Spec.EmptyContract /\
  init (Examples.envFor "Text") Generator_zero "Text" Examples.worldOld =
    (logged Examples.worldOld [Load],
     Done (Examples.genFor "Text" Examples.Text)) /\
  snd (run (Examples.envFor "Text") Examples.worldOld) = 0%Z.
Proof.
  assert (Hinit :
    init (Examples.envFor "Text") Generator_zero "Text" Examples.worldOld =
    (logged Examples.worldOld [Load],
     Done (Examples.genFor "Text" Examples.Text))).
  { rewrite init_eq.
    replace (Spec.TargetResolver gotypes.Empty
               (packages_Load (Examples.envFor "Text")) "Text")
      with (@inr Spec.ResolutionError _ (Examples.loaded, Examples.Text))
      by (vm_compute; reflexivity).
    reflexivity. }
  split; [|split; [reflexivity|split; [vm_compute; reflexivity|split]]].
  - intros H.
    specialize (H (Examples.envFor "Text") Generator_zero "Text"
                  Examples.worldOld Examples.loaded
                  (Examples.object "Text" (gotypes.UInterface Examples.Text))
                  Examples.Text eq_refl ltac:(vm_compute; reflexivity)
                  eq_refl eq_refl).
    rewrite Hinit in H. discriminate H.
  - exact Hinit.
  - vm_compute. reflexivity.
Qed.

(** C8, amended: the target resolver.  [init] records the load and then
    either logs the diagnostic of the first failing check and exits with
    status 1, or returns the generator holding the name, the package and
    the interface, its other fields untouched; nothing else changes.  The
    checks come in this order: the load fails; the load yields a number of
    units other than one (AmbiguousUnit); the name is not in the unit's
    scope (NotFound); the declaration's underlying type is not an
    interface (NotAContract); the interface is empty (EmptyContract).
    Empty is the interface that has no method and no restriction to a set
    of types, [interface{}]: an interface that passes has a method or is a
    constraint on types.  The diagnostics of two different failures are two
    different texts. *)
Theorem target_resolver (env : Env) (g : Generator) (name : string)
  (w : World) :
  let load := packages_Load env in
  let R := Spec.TargetResolver gotypes.Empty load name in
  init env g name w =
    match R with
    | inl e =>
        (logged w [Load; Log (log_line (Spec.diagnostic name e))], Exit 1%Z)
    | inr (unit, iface) =>
        (logged w [Load],
         Done {| p := unit; target := iface; targetName := name;
                 targetFirstLetter := targetFirstLetter g;
                 structName := structName g;
                 wrapFunction := wrapFunction g;
                 middlewareStruct := middlewareStruct g;
                 handlerFuncTypes := handlerFuncTypes g;
                 interfaceMethods := interfaceMethods g |})
    end /\
  (forall err, load = inl err -> R = inl (Spec.LoadFailure err)) /\
  (forall units, load = inr units -> List.length units <> 1%nat ->
     R = inl (Spec.AmbiguousUnit (List.length units))) /\
  (forall u, load = inr [u] -> gopackages.Scope u !! name = None ->
     R = inl Spec.NotFound) /\
  (forall u obj t, load = inr [u] ->
     gopackages.Scope u !! name = Some obj ->
     gotypes.ObjUnderlying obj = gotypes.UOther t ->
     R = inl Spec.NotAContract) /\
  (forall u obj i, load = inr [u] ->
     gopackages.Scope u !! name = Some obj ->
     gotypes.ObjUnderlying obj = gotypes.UInterface i ->
     gotypes.NumMethods i = 0%nat -> gotypes.IsMethodSet i = true ->
     R = inl Spec.EmptyContract) /\
  (forall u obj i, load = inr [u] ->
     gopackages.Scope u !! name = Some obj ->
     gotypes.ObjUnderlying obj = gotypes.UInterface i ->
     (0 < gotypes.NumMethods i)%nat \/ gotypes.IsMethodSet i = false ->
     R = inr (u, i)) /\
  (forall e1 e2 : Spec.ResolutionError,
     Spec.sameKind e1 e2 = false ->
     Spec.diagnostic name e1 <> Spec.diagnostic name e2).
Proof.
  cbv zeta.
  destruct (TargetResolver_cases gotypes.Empty (packages_Load env) name)
    as (Hload & Hamb & Hnf & Hnc & Hem & Hok).
  split; [|repeat split; try assumption].
  - rewrite init_eq.
    by destruct (Spec.TargetResolver _ _ _) as [e|[unit iface]].
  - intros u obj i Hl Ho Hu Hnum Hset. apply (Hem u obj i Hl Ho Hu).
    by apply Empty_iff.
  - intros u obj i Hl Ho Hu Hpass. apply (Hok u obj i Hl Ho Hu).
    apply not_true_iff_false. rewrite Empty_iff.
    intros [Hnum Hset]. destruct Hpass as [Hpos|Hno]; [lia|congruence].
  - apply diagnostic_kind.
Qed.

Lemma target_resolver_witness :
  init (Examples.envFor "Nothing") Generator_zero "Nothing" Examples.worldOld
  = (logged Examples.worldOld
       [Load;
        Log ("middlewarer: Trying to generate middlewarer for an empty interface"
             +:+ nl)],
     Exit 1%Z) /\
  Spec.TargetResolver gotypes.Empty (packages_Load (Examples.envFor "Foo"))
    "Foo"
  = inr (Examples.loaded, Examples.Foo).
Proof.
  pose proof (target_resolver (Examples.envFor "Nothing") Generator_zero
                "Nothing" Examples.worldOld) as HN.
  pose proof (target_resolver (Examples.envFor "Foo") Generator_zero
                "Foo" Examples.worldOld) as HF.
  cbv zeta in HN, HF.
  destruct HN as (Hinit & _ & _ & _ & _ & Hempty & _).
  destruct HF as (_ & _ & _ & _ & _ & _ & Hok & _).
  split.
  - rewrite Hinit.
    rewrite (Hempty Examples.loaded
               (Examples.object "Nothing"
                  (gotypes.UInterface Examples.Nothing))
               Examples.Nothing eq_refl
               ltac:(vm_compute; reflexivity) eq_refl eq_refl eq_refl).
    reflexivity.
  - apply (Hok Examples.loaded
             (Examples.object "Foo" (gotypes.UInterface Examples.Foo))
             Examples.Foo eq_refl ltac:(vm_compute; reflexivity) eq_refl).
    left. cbn. lia.
Defined.

(** ** The whole run *)




(** ** The emitted text *)

Lemma print_eq (env : Env) (g : Generator) :
  print env g "" =
  Spec.fileHeader (os_Args env) (gopackages.Name (p g)) +:+ nl +:+
  wrapFunction g +:+ nl +:+
  middlewareStruct g +:+ nl +:+
  handlerFuncTypes g +:+ nl +:+
  interfaceMethods g +:+ nl.
Proof.
  unfold print, Spec.fileHeader, Spec.headerComment, Spec.packageClause.
  by rewrite sapp_nil_l, !sapp_assoc.
Qed.

Lemma concat_ends_nl {A} (f : A -> string) (l : list A) :
  l <> [] ->
  (forall x, exists b, f x = b +:+ nl) ->
  exists b, String.concat "" (List.map f l) = b +:+ nl.
Proof.
  intros Hl Hf. destruct (exists_last Hl) as (l' & x & ->).
  destruct (Hf x) as [b Hb].
  exists (String.concat "" (List.map f l') +:+ b).
  rewrite List.map_app, concat_empty_app. cbn [List.map].
  by rewrite concat_empty_cons, Hb, sapp_nil_r, sapp_assoc.
Qed.

Lemma handlerAlias_ends_nl (render : gotypes.type -> string)
  (fn : gotypes.Func) :
  exists b, Spec.handlerAlias render fn = b +:+ nl.
Proof.
  unfold Spec.handlerAlias. rewrite <- !sapp_assoc. eexists. reflexivity.
Qed.

Lemma methodImpl_ends_nl (recv recvType : string)
  (render : gotypes.type -> string) (fn : gotypes.Func) :
  exists b, Spec.methodImpl recv recvType render fn = b +:+ nl.
Proof.
  unfold Spec.methodImpl, Spec.methodText. rewrite <- !sapp_assoc.
  eexists. reflexivity.
Qed.

(** What a run that ends with status 0 after parsing its flags has done:
    resolved the interface, generated the code, had it formatted, and
    written what the write let through. *)
Lemma successful_run (env : Env) (w w' : World) :
  run env w = (w', 0%Z) ->
  flag_Parse env <> HelpRequested ->
  exists (unit : gopackages.Package) (iface : gotypes.Interface)
         (g : Generator) (res : string),
    flag_Parse env = Parsed /\
    typeName env <> "" /\
    Spec.TargetResolver gotypes.Empty (packages_Load env) (typeName env)
      = inr (unit, iface) /\
    generateWrapperCode env
      (withTarget (withP (withTargetName Generator_zero (typeName env)) unit)
         iface) = Some g /\
    goimports env (print env g "") = Finished res /\
    trace w' =
      (trace w ++
       (if debug env then [] else [OpenFile (outFileName env)]) ++
       [Load; Exec (print env g "")] ++
       (if debug env then [] else [CloseFile (outFileName env)]))%list /\
    (if debug env
     then stdout w' = stdout w +:+ written env ToStdout res /\
          files w' = files w
     else stdout w' = stdout w /\
          os_OpenFile env (outFileName env) = None /\
          file_Close env (outFileName env) = None /\
          files w' =
            <[outFileName env :=
                written env (ToFile (outFileName env)) res]> (files w)).
Proof.
  intros Hrun Hhelp. revert Hrun. run_unfold.
  destruct (flag_Parse env) as [| |complaint]; [|done|discriminate].
  cbv beta iota.
  destruct (String.eqb (typeName env) "") eqn:Hname; [discriminate|].
  apply String.eqb_neq in Hname.
  destruct (debug env) eqn:Hdebug.
  - rewrite init_eq.
    destruct (Spec.TargetResolver _ _ _) as [e|[unit iface]]; [discriminate|].
    destruct (generateWrapperCode _ _) as [g|] eqn:Hg; [|discriminate].
    cbn. destruct (goimports _ _) as [| |res] eqn:Hfmt; cbn;
      try discriminate.
    intros [= <-]. exists unit, iface, g, res.
    cbn. rewrite <- !app_assoc. by repeat split.
  - destruct (os_OpenFile env (outFileName env)) eqn:Hopen; [discriminate|].
    rewrite init_eq.
    destruct (Spec.TargetResolver _ _ _) as [e|[unit iface]]; [discriminate|].
    destruct (generateWrapperCode _ _) as [g|] eqn:Hg; [|discriminate].
    cbn. destruct (goimports _ _) as [| |res] eqn:Hfmt; cbn;
      try discriminate.
    destruct (file_Close _ _) eqn:Hclose; [discriminate|].
    intros [= <-].
    exists unit, iface, g, res.
    cbn. rewrite insert_insert_eq, <- !app_assoc. by repeat split.
Qed.

(** C7, as stated, fails.  The run for [Foo] with a formatter that leaves
    the text as it is ends with status 0, and in its artifact the package
    clause follows the header comment on the very next line: no blank line
    separates the two.  And on a full disk the run for [Foo] ends with
    status 0 as well, with an artifact that is empty. *)
Lemma artifact_not_six_separated_blocks :
  ~ (forall (env : Env) (w : World),
       snd (run env w) = 0%Z -> debug env = false ->
       exists rest,
         files (fst (run env w)) !! outFileName env =
         Some (Spec.headerComment (os_Args env) +:+ nl +:+ rest)) /\
  (let r := run (Examples.envFor "Foo") Examples.worldOld in
   snd r = 0%Z /\
   exists rest,
     files (fst r) !! "foo_middleware.go" =
     Some (("// Code generated by " +:+ dquote +:+ "middlewarer -type=Foo" +:+
            dquote +:+ "; DO NOT EDIT." +:+ nl) +:+
           ("package app" +:+ nl) +:+
           nl +:+
           rest)) /\
  (let r := run (Cases.envDiskFull "Foo") Examples.worldOld in
   snd r = 0%Z /\ files (fst r) !! "foo_middleware.go" = Some "").
Proof.
  split; [|split].
  - intros H.
    destruct (H (Examples.envFor "Foo") Examples.worldOld
                ltac:(vm_compute; reflexivity) eq_refl) as [rest Hrest].
    vm_compute in Hrest. discriminate Hrest.
  - cbv zeta. split; [vm_compute; reflexivity|].
    eexists. vm_compute. reflexivity.
  - cbv zeta. split; vm_compute; reflexivity.
Qed.

(** C7, amended: the artifact of a successful run.  When a run that
    parsed its flags ends with status 0, the contract was resolved, and
    the text handed to the formatter is, in this order: the header (the
    comment naming the command line, with the package clause on the next
    line), the constructor function, the wrapper type (the delegate field
    and one override field per method), the handler-type aliases (one per
    method), and the method implementations (one per method), each of
    these five blocks followed by an empty line.  The first three blocks
    end their last line, and so do the last two unless the interface has
    no method, in which case they are empty.  What the formatter returns
    for that text is written to the destination, standard output in debug
    mode and the output file otherwise, which then holds what the write
    let through: the formatter's output itself when the write
    succeeds. *)
Theorem artifact_layout (env : Env) (w w' : World) :
  run env w = (w', 0%Z) ->
  flag_Parse env <> HelpRequested ->
  exists (unit : gopackages.Package) (iface : gotypes.Interface)
         (g : Generator) (res : string),
    packages_Load env = inr [unit] /\
    (exists obj, gopackages.Scope unit !! typeName env = Some obj /\
                 gotypes.ObjUnderlying obj = gotypes.UInterface iface) /\
    gotypes.Empty iface = false /\
    generateWrapperCode env
      (withTarget (withP (withTargetName Generator_zero (typeName env)) unit)
         iface) = Some g /\
    p g = unit /\
    let name := typeName env in
    let ms := gotypes.Methods iface in
    let header :=
      Spec.headerComment (os_Args env) +:+
      Spec.packageClause (gopackages.Name unit) in
    let constructor := Spec.constructor name in
    let wrapper :=
      Spec.structHeader name +:+
      String.concat "" (List.map Spec.overrideField ms) +:+ "}" +:+ nl in
    let aliases :=
      String.concat "" (List.map (Spec.handlerAlias (rendered g)) ms) in
    let methods :=
      String.concat ""
        (List.map
           (Spec.methodImpl (targetFirstLetter g) (name +:+ "Middleware")
              (rendered g)) ms) in
    let text :=
      header +:+ nl +:+ constructor +:+ nl +:+ wrapper +:+ nl +:+
      aliases +:+ nl +:+ methods +:+ nl in
    let dest := if debug env then ToStdout else ToFile (outFileName env) in
    print env g "" = text /\
    goimports env text = Finished res /\
    In (Exec text) (trace w') /\
    (if debug env
     then stdout w' = stdout w +:+ written env dest res /\
          files w' = files w
     else stdout w' = stdout w /\
          files w' = <[outFileName env := written env dest res]> (files w)) /\
    (dest_Write env dest res = Written -> written env dest res = res) /\
    (forall b, In b [header; constructor; wrapper] ->
               exists b', b = b' +:+ nl) /\
    (ms <> [] ->
     forall b, In b [aliases; methods] -> exists b', b = b' +:+ nl) /\
    (ms = [] -> aliases = "" /\ methods = "").
Proof.
  intros Hrun Hhelp.
  destruct (successful_run env w w' Hrun Hhelp)
    as (unit & iface & g & res & _ & _ & Hres & Hg & Hfmt & Htr & Hdest).
  exists unit, iface, g, res.
  destruct (TargetResolver_inr _ _ _ unit iface Hres)
    as (Hload & Hobj & Hempty).
  split; [exact Hload|]. split; [exact Hobj|]. split; [exact Hempty|].
  split; [exact Hg|].
  destruct (generateWrapperCode_eq env _ g Hg)
    as (first & _ & Hp & Ht & Hn & _ & Hs & Hw & Hh & Hm & Hi).
  cbv zeta in Hh, Hm, Hi.
  cbn [p target targetName withTarget withP withTargetName] in *.
  split; [exact Hp|]. cbv zeta.
  assert (Hprint : print env g "" =
    (Spec.headerComment (os_Args env) +:+
     Spec.packageClause (gopackages.Name unit)) +:+ nl +:+
    Spec.constructor (typeName env) +:+ nl +:+
    (Spec.structHeader (typeName env) +:+
     String.concat "" (List.map Spec.overrideField (gotypes.Methods iface))
     +:+ "}" +:+ nl) +:+ nl +:+
    String.concat ""
      (List.map (Spec.handlerAlias (rendered g)) (gotypes.Methods iface))
    +:+ nl +:+
    String.concat ""
      (List.map
         (Spec.methodImpl (targetFirstLetter g)
            (typeName env +:+ "Middleware") (rendered g))
         (gotypes.Methods iface))
    +:+ nl).
  { rewrite print_eq, Hp, Hw, Hm, Hh, Hi, Hs. reflexivity. }
  rewrite <- Hprint.
  split; [reflexivity|]. split; [exact Hfmt|]. split.
  { rewrite Htr, !in_app_iff. right. right. left. cbn. tauto. }
  split.
  { destruct (debug env); [exact Hdest|]. tauto. }
  split.
  { unfold written. by intros ->. }
  split; [|split].
  - intros b [<-|[<-|[<-|[]]]].
    + unfold Spec.packageClause. rewrite <- !sapp_assoc.
      eexists. reflexivity.
    + unfold Spec.constructor. rewrite <- !sapp_assoc. eexists. reflexivity.
    + rewrite <- !sapp_assoc. eexists. reflexivity.
  - intros Hms b [<-|[<-|[]]].
    + apply concat_ends_nl; [exact Hms|]. apply handlerAlias_ends_nl.
    + apply concat_ends_nl; [exact Hms|]. apply methodImpl_ends_nl.
  - by intros ->.
Qed.

Lemma artifact_layout_witness :
  exists (unit : gopackages.Package) (iface : gotypes.Interface)
         (g : Generator) (res : string),
    packages_Load (Examples.envFor "Foo") = inr [unit] /\
    gotypes.Empty iface = false /\
    goimports (Examples.envFor "Foo") (print (Examples.envFor "Foo") g "")
      = Finished res.
Proof.
  destruct (artifact_layout (Examples.envFor "Foo") Examples.worldOld
              (fst (run (Examples.envFor "Foo") Examples.worldOld))
              ltac:(vm_compute; reflexivity) ltac:(discriminate))
    as (unit & iface & g & res & Hload & _ & Hempty & _ & _ & Hprint & Hfmt
        & _).
  exists unit, iface, g, res. split; [exact Hload|]. split; [exact Hempty|].
  cbv zeta in Hprint, Hfmt. rewrite Hprint. exact Hfmt.
Defined.

(** The text handed to the formatter for [Foo]. *)
Example artifact_of_Foo :
  print (Examples.envFor "Foo") Examples.generatedFoo "" =
    ("// Code generated by " +:+ dquote +:+ "middlewarer -type=Foo" +:+
     dquote +:+ "; DO NOT EDIT." +:+ nl) +:+
    ("package app" +:+ nl) +:+
    nl +:+
    ("// WrapFoo returns the passed Foo wrapped in the middleware " +:+
     "defined in FooMiddleware" +:+ nl) +:+
    ("func WrapFoo(toWrap Foo, wrapper FooMiddleware) Foo {" +:+ nl) +:+
    (tab +:+ "wrapper.wrapped = toWrap" +:+ nl) +:+
    (tab +:+ "return &wrapper" +:+ nl) +:+
    ("}" +:+ nl) +:+
    nl +:+
    ("// FooMiddleware implements Foo" +:+ nl) +:+
    ("type FooMiddleware struct {" +:+ nl) +:+
    (tab +:+ "wrapped Foo" +:+ nl) +:+
    nl +:+
    (tab +:+ "BarMiddleware func(BarHandler) BarHandler" +:+ nl) +:+
    ("}" +:+ nl) +:+
    nl +:+
    ("type BarHandler func(Baz) Quz" +:+ nl) +:+
    nl +:+
    ("func (f *FooMiddleware) Bar(a0 Baz) Quz {" +:+ nl) +:+
    (tab +:+ "fun := f.wrapped.Bar" +:+ nl) +:+
    (tab +:+ "if f.BarMiddleware != nil {" +:+ nl) +:+
    (tab +:+ tab +:+ "fun = f.BarMiddleware(fun)" +:+ nl) +:+
    (tab +:+ "}" +:+ nl) +:+
    (tab +:+ "return fun(a0)" +:+ nl) +:+
    ("}" +:+ nl) +:+
    nl +:+
    nl.
Proof. vm_compute. reflexivity. Qed.

(** ** A missing type name *)

(** The entry point of main.go reports a missing type name.  When the
    command line parses and leaves the flag value empty, the run consists
    of the usage text followed by the diagnostic [no type name supplied],
    and ends with status 1: no file is opened, no package is loaded,
    nothing is generated or formatted, and files and standard output are
    as before. *)
Lemma missing_type_is_config_error (env : Env) (w : World) :
  flag_Parse env = Parsed ->
  typeName env = "" ->
  run env w =
    (logged w [Usage; Log ("middlewarer: no type name supplied" +:+ nl)],
     1%Z).
Proof.
  intros Hparse Hname. run_unfold. rewrite Hparse, Hname. cbn.
  unfold logged. by rewrite <- app_assoc.
Qed.

Lemma missing_type_is_config_error_witness :
  run Examples.envNoArgs Examples.worldOld =
    (logged Examples.worldOld
       [Usage; Log ("middlewarer: no type name supplied" +:+ nl)], 1%Z).
Proof.
  apply (missing_type_is_config_error Examples.envNoArgs Examples.worldOld);
    reflexivity.
Defined.

(** The first revision of the entry point tests the flag pointer, which is
    never nil, instead of the flag value: whenever the command line
    parses, its run starts by loading the package and never prints the
    usage text. *)
Lemma first_revision_dead_guard (env : Env) (stamp : string) (w : World) :
  flag_Parse env = Parsed ->
  exists evs : list Event,
    trace (fst (Unnamed000.run env stamp w)) = (trace w ++ Load :: evs)%list /\
    ~ In Usage evs.
Proof.
  intros Hparse.
  unfold Unnamed000.run, Unnamed000.main, Unnamed000.typeName_ptr,
    Unnamed000.init, Unnamed000.Println, Unnamed000.log_Fatalf,
    Unnamed000.log_Printf.
  run_unfold. rewrite Hparse.
  destruct (packages_Load env) as [err|[|u [|u' us]]]; cbn;
    try (eexists; split;
         [rewrite <- app_assoc; reflexivity | cbn; intuition discriminate]).
  destruct (gopackages.Scope u !! typeName env) as [obj|]; cbn;
    try (eexists; split;
         [rewrite <- app_assoc; reflexivity | cbn; intuition discriminate]).
  destruct (gotypes.ObjUnderlying obj); cbn.
  - exists []. split; [reflexivity | intros []].
  - eexists; split;
      [rewrite <- app_assoc; reflexivity | cbn; intuition discriminate].
Qed.

(** C9 fails in the first revision of the entry point (part_000).  Run
    without arguments in a directory holding one package, it prints no
    usage text and no [no type name supplied]: it loads the package, looks
    up the empty name, and ends with status 1 on the diagnostic of
    resolution, [Couldn't find target object '' in source file].  No
    command line that parses makes that revision print the usage text. *)
Theorem first_revision_missing_type (stamp : string) :
  Unnamed000.run Examples.envNoArgs stamp Examples.worldOld =
    (logged Examples.worldOld
       [Load;
        Log (stamp +:+ "Couldn't find target object '' in source file"
             +:+ nl)],
     1%Z) /\
  forall (env : Env) (w : World),
    flag_Parse env = Parsed ->
    exists evs : list Event,
      trace (fst (Unnamed000.run env stamp w)) = (trace w ++ Load :: evs)%list
      /\ ~ In Usage evs.
Proof.
  split; [|intros env w; apply first_revision_dead_guard].
  unfold Unnamed000.run, Unnamed000.main, Unnamed000.typeName_ptr,
    Unnamed000.init, Unnamed000.Println, Unnamed000.log_Fatalf,
    Unnamed000.log_Printf.
  run_unfold.
  cbn [packages_Load Examples.envNoArgs typeName flag_Parse].
  replace (gopackages.Scope Examples.loaded !! "") with (@None gotypes.Object)
    by (vm_compute; reflexivity).
  cbn [trace files stdout]. unfold logged.
  by rewrite <- app_assoc.
Qed.

(** ** The receiver *)

(** The slice expression [g.targetName[0:1]] does not panic on a name that
    is not empty. *)
Lemma generateWrapperCode_total (env : Env) (g : Generator) :
  targetName g <> "" -> exists g', generateWrapperCode env g = Some g'.
Proof.
  intros Hname. unfold generateWrapperCode.
  destruct (targetName g) as [|c rest]; [done|]. cbn. eauto.
Qed.

(** With a type name, [main] never reaches the slice expression on an
    empty name. *)
Lemma generateWrapperCode_resolved (env : Env) (unit : gopackages.Package)
  (iface : gotypes.Interface) :
  String.eqb (typeName env) "" = false ->
  generateWrapperCode env
    (withTarget (withP (withTargetName Generator_zero (typeName env)) unit)
       iface) <> None.
Proof.
  intros Hname Hgen.
  destruct (generateWrapperCode_total env
              (withTarget
                 (withP (withTargetName Generator_zero (typeName env)) unit)
                 iface)) as [g Hg].
  - cbn. by apply String.eqb_neq.
  - congruence.
Qed.

(** For a name that starts with an ASCII character the receiver is that
    character in lower case, and every method implementation is declared
    on it. *)
Lemma receiver_of_ascii_name (env : Env) (g g' : Generator) (c : ascii)
  (rest : string) (fn : gotypes.Func) :
  targetName g = String c rest ->
  (nat_of_ascii c < 128)%nat ->
  generateWrapperCode env g = Some g' ->
  targetFirstLetter g' = String (gostrings.lowerASCII c) "" /\
  exists text,
    middlewareMethodText g' fn =
    "func (" +:+ String (gostrings.lowerASCII c) "" +:+ " *" +:+ text.
Proof.
  intros Hname Hc Hgen.
  destruct (generateWrapperCode_eq env g g' Hgen)
    as (first & Hfirst & _ & _ & _ & Hrecv & _).
  rewrite Hname in Hfirst. cbn in Hfirst. injection Hfirst as <-.
  assert (Hr : targetFirstLetter g' = String (gostrings.lowerASCII c) "").
  { rewrite Hrecv. unfold gostrings.ToLower, gostrings.isASCII.
    cbn [list_ascii_of_string forallb].
    apply Nat.ltb_lt in Hc. by rewrite Hc. }
  split; [exact Hr|].
  destruct (methodText_starts g' fn) as [text Htext].
  rewrite Htext, Hr. eexists. reflexivity.
Qed.

Lemma receiver_of_ascii_name_witness :
  targetFirstLetter Examples.generatedServer = "s" /\
  exists text,
    middlewareMethodText Examples.generatedServer Examples.Request =
    "func (" +:+ "s" +:+ " *" +:+ text.
Proof.
  apply (receiver_of_ascii_name (Examples.envFor "Server")
           (Examples.genFor "Server" Examples.Server)
           Examples.generatedServer "S"%char "erver" Examples.Request).
  - reflexivity.
  - vm_compute. lia.
  - vm_compute. reflexivity.
Defined.

(** C10 fails on names that start outside ASCII.  The receiver is computed
    from the first byte of the name alone: for the interfaces [Ärger] and
    [Öl], whose UTF-8 names both start with the byte 0xC3, generation
    succeeds and yields one and the same receiver, the lower-casing of the
    lone byte 0xC3, so it cannot be the lower-cased first letter of both
    ([ä] for one, [ö] for the other). *)
Theorem receiver_from_first_byte (env : Env) :
  exists g1 g2 : Generator,
    generateWrapperCode env
      (Examples.genFor Examples.name_Aerger Examples.Foo) = Some g1 /\
    generateWrapperCode env
      (Examples.genFor Examples.name_Oel Examples.Foo) = Some g2 /\
    targetFirstLetter g1 =
      unicode_ToLower env (String (ascii_of_nat 195) "") /\
    targetFirstLetter g2 = targetFirstLetter g1 /\
    ~ (targetFirstLetter g1 = Examples.lower_ae /\
       targetFirstLetter g2 = Examples.lower_oe).
Proof.
  destruct (generateWrapperCode_total env
              (Examples.genFor Examples.name_Aerger Examples.Foo))
    as [g1 H1]; [discriminate|].
  destruct (generateWrapperCode_total env
              (Examples.genFor Examples.name_Oel Examples.Foo))
    as [g2 H2]; [discriminate|].
  exists g1, g2. split; [exact H1|]. split; [exact H2|].
  destruct (generateWrapperCode_eq env _ g1 H1)
    as (f1 & Hf1 & _ & _ & _ & Hr1 & _).
  destruct (generateWrapperCode_eq env _ g2 H2)
    as (f2 & Hf2 & _ & _ & _ & Hr2 & _).
  cbn in Hf1, Hf2. injection Hf1 as <-. injection Hf2 as <-.
  assert (E1 : targetFirstLetter g1 =
               unicode_ToLower env (String (ascii_of_nat 195) ""))
    by (rewrite Hr1; reflexivity).
  assert (E2 : targetFirstLetter g2 = targetFirstLetter g1)
    by (rewrite Hr1, Hr2; reflexivity).
  split; [exact E1|]. split; [exact E2|].
  intros [Ha Ho]. rewrite E2, Ha in Ho. discriminate Ho.
Qed.

(** * Further properties of the code *)

(** ** Outcomes of a run *)

(** Splits a run of [main] into its outcomes. *)
Ltac run_cases :=
  run_unfold;
  destruct (flag_Parse _) as [| |complaint] eqn:Hparse;
  [ cbv beta iota;
    destruct (String.eqb (typeName _) "") eqn:Hname;
    [ cbn
    | destruct (debug _) eqn:Hdebug;
      [ rewrite init_eq
      | destruct (os_OpenFile _ (outFileName _)) as [openErr|] eqn:Hopen;
        [ cbn | cbv beta iota; rewrite init_eq ] ];
      try (destruct (Spec.TargetResolver _ _ _) as [resErr|[unit iface]]
             eqn:Hres;
           [ cbn
           | destruct (generateWrapperCode _ _) as [gen|] eqn:Hgen;
             [ cbn;
               destruct (goimports _ _) as [startErr|waitErr fmtErr|res]
                 eqn:Hfmt;
               cbn;
               try (destruct (file_Close _ _) as [closeErr|] eqn:Hclose; cbn)
             | cbn ] ]) ]
  | cbn
  | cbn ].

Lemma newEvents_eq (env : Env) (w : World) (evs : list Event) :
  trace (fst (run env w)) = (trace w ++ evs)%list -> newEvents env w = evs.
Proof. unfold newEvents. intros ->. apply drop_app_length. Qed.

(** Closes the outcome in which generation would have panicked. *)
Ltac no_panic :=
  match goal with
  | Hname : String.eqb (typeName ?env) "" = false,
    Hgen : generateWrapperCode ?env _ = None |- _ =>
      exfalso; exact (generateWrapperCode_resolved env _ _ Hname Hgen)
  end.

(** Brings the trace of an outcome to the form [trace w ++ evs] and reads
    [evs] off. *)
Ltac read_events :=
  cbn [fst snd trace files stdout]; rewrite <- ?app_assoc;
  rewrite ?drop_app_length; cbn [app].

(** In debug mode a run makes no call into the file system and leaves
    every file as it was, whatever its outcome. *)
Theorem debug_run_leaves_files (env : Env) (w : World) :
  debug env = true ->
  files (fst (run env w)) = files w /\
  forallb (fun e => negb (isFileCall e)) (newEvents env w) = true.
Proof.
  intros Hd. unfold newEvents.
  run_cases; try discriminate Hd; try no_panic; read_events;
    split; reflexivity.
Qed.

Lemma debug_run_leaves_files_witness :
  files (fst (run (Cases.envDebug "Foo") Examples.worldOld))
  = files Examples.worldOld.
Proof.
  exact (proj1 (debug_run_leaves_files (Cases.envDebug "Foo")
                  Examples.worldOld eq_refl)).
Defined.

(** A run changes at most one file, the output file: every file of
    another name is after the run what it was before. *)
Theorem run_changes_only_output (env : Env) (w : World) (name : string) :
  name <> outFileName env ->
  files (fst (run env w)) !! name = files w !! name.
Proof.
  intros Hne.
  run_cases; try no_panic; read_events;
    rewrite ?lookup_insert_ne by congruence; reflexivity.
Qed.

Lemma run_changes_only_output_witness :
  files (fst (run (Examples.envFor "Nothing") Examples.worldOld))
    !! "foo_middleware.go"
  = files Examples.worldOld !! "foo_middleware.go".
Proof.
  apply (run_changes_only_output (Examples.envFor "Nothing")
           Examples.worldOld "foo_middleware.go").
  vm_compute. discriminate.
Defined.






(** Goes through the elements of a concrete list that [H] says holds an
    event, dropping those of another kind. *)
Ltac in_cases H :=
  cbn in H;
  repeat (destruct H as [H|H]; [try discriminate H|]);
  try (exfalso; exact H).

(** The usage text is printed when the command line does not parse (a
    request for help included) and when the type name is missing, and for
    nothing else. *)
Theorem usage_only_for_command_line (env : Env) (w : World) :
  In Usage (newEvents env w) <->
  flag_Parse env <> Parsed \/ typeName env = "".
Proof.
  unfold newEvents.
  run_cases; try no_panic; read_events;
    (split;
     [ intros H;
       try (right; by apply String.eqb_eq);
       try (left; discriminate);
       in_cases H
     | intros [H|H];
       try (left; reflexivity); try (right; left; reflexivity);
       try (exfalso; by apply H);
       apply String.eqb_neq in Hname; contradiction ]).
Qed.



(** The output file is closed only after the write: when a run closes a
    file, it is the output file, the formatter has finished on the text
    generated for the resolved interface, the file holds what the write
    let through of the formatter's output, and the run ends with status 0
    if closing succeeds and with status 1 if it fails. *)
Theorem close_follows_write (env : Env) (w : World) (name : string) :
  In (CloseFile name) (newEvents env w) ->
  name = outFileName env /\
  (exists (unit : gopackages.Package) (iface : gotypes.Interface)
          (g : Generator) (res : string),
     Spec.TargetResolver gotypes.Empty (packages_Load env) (typeName env)
       = inr (unit, iface) /\
     generateWrapperCode env
       (withTarget (withP (withTargetName Generator_zero (typeName env)) unit)
          iface) = Some g /\
     goimports env (print env g "") = Finished res /\
     files (fst (run env w)) =
       <[name := written env (ToFile name) res]> (files w)) /\
  snd (run env w) =
    match file_Close env name with None => 0%Z | Some _ => 1%Z end.
Proof.
  unfold newEvents.
  run_cases; try no_panic; read_events; intros Hin; in_cases Hin;
    injection Hin as <-; rewrite Hclose;
    (split; [reflexivity|]); (split; [|reflexivity]);
    exists unit, iface, gen, res;
    (split; [reflexivity|]); (split; [exact Hgen|]);
    (split; [exact Hfmt|]);
    by rewrite insert_insert_eq.
Qed.

Lemma close_follows_write_witness :
  snd (run (Cases.envCloseFails "Foo") Examples.worldOld) = 1%Z /\
  exists (unit : gopackages.Package) (iface : gotypes.Interface)
         (g : Generator) (res : string),
    Spec.TargetResolver gotypes.Empty
      (packages_Load (Cases.envCloseFails "Foo")) "Foo" = inr (unit, iface) /\
    generateWrapperCode (Cases.envCloseFails "Foo")
      (withTarget (withP (withTargetName Generator_zero "Foo") unit) iface)
      = Some g /\
    goimports (Cases.envCloseFails "Foo")
      (print (Cases.envCloseFails "Foo") g "") = Finished res /\
    files (fst (run (Cases.envCloseFails "Foo") Examples.worldOld))
    = <["out.go" := written (Cases.envCloseFails "Foo") (ToFile "out.go") res]>
        (files Examples.worldOld).
Proof.
  destruct (close_follows_write (Cases.envCloseFails "Foo")
              Examples.worldOld "out.go"
              ltac:(vm_compute; tauto))
    as (_ & Hwritten & Hcode).
  split; [exact Hcode | exact Hwritten].
Defined.


Example disk_full_run_succeeds :
  run (Cases.envDiskFull "Foo") Examples.worldOld =
    ({| files := <["foo_middleware.go" := ""]> (files Examples.worldOld);
        stdout := stdout Examples.worldOld;
        trace := [OpenFile "foo_middleware.go"; Load;
                  Exec (print (Cases.envDiskFull "Foo")
                          Examples.generatedFoo "");
                  CloseFile "foo_middleware.go"] |}, 0%Z).
Proof. vm_compute. reflexivity. Qed.

(** ** The order of the calls *)

(** Outside debug mode, a run with a command line that parses and a type
    name starts by opening the output file, before anything is loaded.  A
    run that ends with status 0, other than on a request for help, has
    made these calls and no others, in this order: the output file is
    opened, the package is loaded, the formatter is started on the text
    [print] writes for the generator of the resolved interface, the
    output file is closed; in debug mode the two file calls are left
    out. *)
Theorem order_of_calls (env : Env) (w : World) :
  (flag_Parse env = Parsed -> typeName env <> "" -> debug env = false ->
   exists rest : list Event,
     newEvents env w = OpenFile (outFileName env) :: rest) /\
  (snd (run env w) = 0%Z -> flag_Parse env <> HelpRequested ->
   exists (unit : gopackages.Package) (iface : gotypes.Interface)
          (g : Generator),
     Spec.TargetResolver gotypes.Empty (packages_Load env) (typeName env)
       = inr (unit, iface) /\
     generateWrapperCode env
       (withTarget (withP (withTargetName Generator_zero (typeName env)) unit)
          iface) = Some g /\
     newEvents env w =
     ((if debug env then [] else [OpenFile (outFileName env)]) ++
      [Load; Exec (print env g "")] ++
      (if debug env then [] else [CloseFile (outFileName env)]))%list).
Proof.
  unfold newEvents.
  run_cases; try no_panic; read_events;
    (split;
     [ intros Hp Hn Hd; try discriminate Hp; try discriminate Hd;
       try (apply String.eqb_eq in Hname; contradiction);
       eexists; reflexivity
     | intros Hcode Hhelp; try discriminate Hcode; try (by destruct Hhelp);
       exists unit, iface, gen; done ]).
Qed.

Lemma order_of_calls_witness :
  exists (unit : gopackages.Package) (iface : gotypes.Interface)
         (g : Generator),
    Spec.TargetResolver gotypes.Empty
      (packages_Load (Examples.envFor "Foo")) "Foo" = inr (unit, iface) /\
    generateWrapperCode (Examples.envFor "Foo")
      (withTarget (withP (withTargetName Generator_zero "Foo") unit) iface)
      = Some g /\
    newEvents (Examples.envFor "Foo") Examples.worldOld =
    [OpenFile "foo_middleware.go"; Load;
     Exec (print (Examples.envFor "Foo") g ""); CloseFile "foo_middleware.go"].
Proof.
  exact (proj2 (order_of_calls (Examples.envFor "Foo") Examples.worldOld)
           ltac:(vm_compute; reflexivity) ltac:(discriminate)).
Defined.

(** ** The generator *)

(** The slice expression [g.targetName[0:1]] makes [generateWrapperCode]
    panic exactly on the empty name, and [main] keeps it from there: no
    run of [main] panics. *)
Theorem main_guards_the_slice (env : Env) (g : Generator) (w : World) :
  (generateWrapperCode env g = None <-> targetName g = "") /\
  forall msg : string, ~ In (Panic msg) (newEvents env w).
Proof.
  split.
  - unfold generateWrapperCode.
    destruct (targetName g) as [|c rest]; cbn; split; congruence.
  - intros msg. unfold newEvents.
    run_cases; try no_panic; read_events; intros Hin; in_cases Hin.
Qed.

(** [generateWrapperCode] reads the package, the interface and the name of
    the generator and nothing else: the receiver, the struct name and the
    four buffers are set anew.  So two generators that agree on the three
    give the same result, and generating again from a generated generator
    changes nothing. *)
Theorem wrapper_code_is_fresh (env : Env) (g1 g2 : Generator) :
  p g1 = p g2 ->
  target g1 = target g2 ->
  targetName g1 = targetName g2 ->
  generateWrapperCode env g1 = generateWrapperCode env g2 /\
  forall g' : Generator,
    generateWrapperCode env g1 = Some g' ->
    generateWrapperCode env g' = Some g'.
Proof.
  assert (Hsame : forall a b : Generator,
    p a = p b -> target a = target b -> targetName a = targetName b ->
    generateWrapperCode env a = generateWrapperCode env b).
  { intros a b Hp Ht Hn. unfold generateWrapperCode.
    by rewrite Hp, Ht, Hn. }
  intros Hp Ht Hn. split; [by apply Hsame|].
  intros g' Hgen.
  destruct (generateWrapperCode_eq env g1 g' Hgen)
    as (first & _ & Hp' & Ht' & Hn' & _).
  rewrite <- Hgen. by apply Hsame.
Qed.

Lemma wrapper_code_is_fresh_witness :
  generateWrapperCode (Examples.envFor "Server")
    (Examples.genReady "Server" "x" Examples.Server)
  = generateWrapperCode (Examples.envFor "Server")
      (Examples.genFor "Server" Examples.Server).
Proof.
  exact (proj1 (wrapper_code_is_fresh (Examples.envFor "Server")
                  (Examples.genReady "Server" "x" Examples.Server)
                  (Examples.genFor "Server" Examples.Server)
                  eq_refl eq_refl eq_refl)).
Defined.

(** ** Packages of the same name *)

Lemma listWith_map {A B : Type} (sep : string) (f : B -> string)
  (h : A -> B) (xs : list A) :
  forall first : bool,
    gotypes.listWith sep f first (List.map h xs) =
    gotypes.listWith sep (fun x => f (h x)) first xs.
Proof.
  induction xs as [|x xs IH]; intros first; [reflexivity|].
  cbn [List.map gotypes.listWith]. by rewrite IH.
Qed.

Lemma tupleVars_mapPackages (qf : gotypes.Qualifier)
  (f : gotypes.Package -> gotypes.Package)
  (vs : list (string * gotypes.type)) :
  Forall (fun v => gotypes.typ qf (mapPackages f (snd v)) =
                   gotypes.typ qf (snd v)) vs ->
  forall (variadic first : bool),
    gotypes.tupleVarsWith (gotypes.typ qf) variadic first
      (List.map (fun v => (fst v, mapPackages f (snd v))) vs) =
    gotypes.tupleVarsWith (gotypes.typ qf) variadic first vs.
Proof.
  induction 1 as [|[n t] vs Ht _ IH]; intros variadic first; [reflexivity|].
  cbn [List.map gotypes.tupleVarsWith fst snd]. cbn [snd] in Ht.
  rewrite IH, Ht.
  destruct vs, variadic; try reflexivity. cbn [List.map].
  destruct t; cbn [mapPackages]; try by rewrite <- Ht.
  cbn [mapPackages gotypes.typ] in Ht.
  apply String.app_inj in Ht. by rewrite Ht.
Qed.

Lemma signature_mapPackages (qf : gotypes.Qualifier)
  (f : gotypes.Package -> gotypes.Package) (sig : gotypes.Signature) :
  signatureAll (fun t => gotypes.typ qf (mapPackages f t) = gotypes.typ qf t)
    sig ->
  gotypes.signatureWith (gotypes.typ qf) (mapSignature (mapPackages f) sig) =
  gotypes.signatureWith (gotypes.typ qf) sig.
Proof.
  intros [Hps Hrs]. unfold gotypes.signatureWith, mapSignature.
  cbn [gotypes.Params gotypes.Results gotypes.Variadic].
  rewrite (tupleVars_mapPackages _ f _ Hps),
    !(tupleVars_mapPackages _ f _ Hrs).
  destruct (gotypes.Results sig) as [|[n r] [|r2 rs]]; try reflexivity.
  cbn [List.map fst snd]. destruct (String.eqb n ""); [|reflexivity].
  inversion Hrs as [|? ? Hr _]; subst. cbn [snd] in Hr. by rewrite Hr.
Qed.

(** The generated text names a package of another path by its name alone.
    Moving the packages a type mentions to other import paths, with their
    names kept and the invoking package staying the invoking package,
    does not change how the type is rendered: types of two packages of the
    same name are written the same, and the import path is left to the
    formatter to find. *)
Theorem rendering_ignores_import_paths (g : Generator)
  (f : gotypes.Package -> gotypes.Package) (t : gotypes.type) :
  (forall pkg : gotypes.Package,
     gotypes.Name (f pkg) = gotypes.Name pkg /\
     String.eqb (gotypes.Path (f pkg)) (gopackages.PkgPath (p g)) =
     String.eqb (gotypes.Path pkg) (gopackages.PkgPath (p g))) ->
  rendered g (mapPackages f t) = rendered g t.
Proof.
  intros Hf. unfold rendered, gotypes.TypeString.
  induction t as [n|pkg n targs IH|e IH|e IH|n e IH|k e IHk IHe|d e IH
                 |sig IH|fields IH|terms IH|methods embeddeds IHm IHe]
    using type_nested_ind.
  - reflexivity.
  - cbn [mapPackages gotypes.typ].
    rewrite listWith_map, (listWith_ext _ _ _ targs IH).
    assert (Hprefix :
      gotypes.packagePrefix (option_map f pkg)
        (Some (typeStringQuantifier g)) =
      gotypes.packagePrefix pkg (Some (typeStringQuantifier g))).
    { destruct pkg as [q|]; [|reflexivity].
      cbn [option_map gotypes.packagePrefix]. unfold typeStringQuantifier.
      destruct (Hf q) as [-> ->]. reflexivity. }
    rewrite Hprefix. by destruct targs.
  - cbn [mapPackages gotypes.typ]. by rewrite IH.
  - cbn [mapPackages gotypes.typ]. by rewrite IH.
  - cbn [mapPackages gotypes.typ]. by rewrite IH.
  - cbn [mapPackages gotypes.typ]. by rewrite IHk, IHe.
  - cbn [mapPackages gotypes.typ]. rewrite IH.
    destruct d; try reflexivity.
    destruct e as [| | | | | |[] ?| | | |]; reflexivity.
  - cbn [mapPackages gotypes.typ]. by rewrite signature_mapPackages.
  - cbn [mapPackages gotypes.typ]. rewrite listWith_map. f_equal. f_equal.
    apply listWith_ext.
    eapply Forall_impl; [exact IH|]. intros fld Hfld.
    unfold gotypes.fieldWith. cbn [gotypes.FieldEmbedded gotypes.FieldName
                                   gotypes.FieldType].
    by rewrite Hfld.
  - cbn [mapPackages gotypes.typ]. rewrite listWith_map.
    apply listWith_ext.
    eapply Forall_impl; [exact IH|]. intros tm Htm.
    unfold gotypes.termWith. cbn [fst snd]. by rewrite Htm.
  - cbn [mapPackages gotypes.typ]. rewrite !listWith_map.
    rewrite (listWith_ext _ _ _ embeddeds IHe).
    assert (Hms :
      gotypes.listWith "; "
        (fun m : string * gotypes.Signature =>
           gotypes.methodWith (gotypes.typ (Some (typeStringQuantifier g)))
             (fst m, mapSignature (mapPackages f) (snd m))) true methods =
      gotypes.listWith "; "
        (gotypes.methodWith (gotypes.typ (Some (typeStringQuantifier g))))
        true methods).
    { apply listWith_ext. eapply Forall_impl; [exact IHm|].
      intros m Hm. unfold gotypes.methodWith. cbn [fst snd].
      by rewrite signature_mapPackages. }
    rewrite Hms. by destruct methods.
Qed.

Lemma rendering_ignores_import_paths_witness :
  rendered (Examples.genReady "Foo" "f" Examples.Foo)
    (mapPackages Cases.toCrypto Cases.rands)
  = rendered (Examples.genReady "Foo" "f" Examples.Foo) Cases.rands.
Proof.
  apply (rendering_ignores_import_paths
           (Examples.genReady "Foo" "f" Examples.Foo)
           Cases.toCrypto Cases.rands).
  intros pkg. unfold Cases.toCrypto.
  destruct (String.eqb (gotypes.Path pkg) "math/rand") eqn:Hpath;
    [|split; reflexivity].
  split; [reflexivity|].
  apply String.eqb_eq in Hpath. rewrite Hpath. reflexivity.
Defined.

Example rands_of_two_packages :
  mapPackages Cases.toCrypto Cases.rands <> Cases.rands /\
  rendered (Examples.genReady "Foo" "f" Examples.Foo) Cases.rands
  = "map[string]*rand.Rand".
Proof. split; [discriminate | vm_compute; reflexivity]. Qed.
